(** * Duplicate Code Detection Tool: the report model and the aggregator

    A shallow embedding of [core.py]: the dataclasses [FileSimilarity],
    [SimilarityReport] and [DetectionResult] with their query and
    serialisation methods, and [DuplicateCodeDetector._process_result],
    which turns the raw mapping returned by [run] into a [DetectionResult].

    Python values are dynamically typed, so the values read out of
    [raw_data] are kept as they are ([pyval]); operations that Python
    may refuse raise an exception ([result]). *)

From Stdlib Require Import ZArith String List Bool Lia.
From Stdlib Require Import Floats.SpecFloat.
Import ListNotations.

Local Open Scope string_scope.
Local Open Scope list_scope.
Local Open Scope Z_scope.

(* ===================================================================== *)
(** ** Python numbers *)
(* ===================================================================== *)

(** A Python [float] is an IEEE 754 binary64 number. *)
Definition float := spec_float.

Definition prec : Z := 53.
Definition emax : Z := 1024.

(** The float nearest to [m * 2^e] (ties to even); infinite on overflow. *)
Definition float_of_dyadic (m e : Z) : float := binary_normalize prec emax m e false.

(** The value of a number that is not a NaN: an infinity or a dyadic
    rational [n * 2^e]. *)
Inductive xreal : Type :=
| XNegInf
| XFin (n e : Z)
| XPosInf.

Definition float_value (f : float) : option xreal :=
  match f with
  | S754_nan => None
  | S754_infinity s => Some (if s then XNegInf else XPosInf)
  | S754_zero _ => Some (XFin 0 0)
  | S754_finite s m e => Some (XFin (cond_Zopp s (Zpos m)) e)
  end.

(** Exact comparison of [n1 * 2^e1] with [n2 * 2^e2]: both are brought to
    the smaller exponent. *)
Definition dyadic_compare (n1 e1 n2 e2 : Z) : comparison :=
  let k := Z.min e1 e2 in
  (n1 * 2 ^ (e1 - k) ?= n2 * 2 ^ (e2 - k)).

Definition xreal_compare (x y : xreal) : comparison :=
  match x, y with
  | XNegInf, XNegInf => Eq
  | XNegInf, _ => Lt
  | _, XNegInf => Gt
  | XPosInf, XPosInf => Eq
  | XPosInf, _ => Gt
  | _, XPosInf => Lt
  | XFin n1 e1, XFin n2 e2 => dyadic_compare n1 e1 n2 e2
  end.

Definition xreal_leb (x y : xreal) : bool :=
  match xreal_compare x y with
  | Gt => false
  | _ => true
  end.

(** The numbers of Python that compare with a float: [int] (and [bool],
    a subclass of [int]) and [float]. *)
Inductive pynum : Type :=
| NumInt (z : Z)
| NumFloat (f : float).

Definition num_value (n : pynum) : option xreal :=
  match n with
  | NumInt z => Some (XFin z 0)
  | NumFloat f => float_value f
  end.

(** [a <= b] on numbers: exact, and false as soon as one side is a NaN. *)
Definition num_le (a b : pynum) : bool :=
  match num_value a, num_value b with
  | Some x, Some y => xreal_leb x y
  | _, _ => false
  end.

(** [a >= b] is [b <= a]. *)
Definition num_ge (a b : pynum) : bool := num_le b a.

Definition float_le (a b : float) : bool := num_le (NumFloat a) (NumFloat b).
Definition float_ge (a b : float) : bool := num_ge (NumFloat a) (NumFloat b).

(* ===================================================================== *)
(** ** Python values, dictionaries and exceptions *)
(* ===================================================================== *)

(** The values a JSON-like mapping such as [raw_data] holds.  A [dict]
    keeps its insertion order, so it is an association list; its keys
    are strings and are pairwise distinct ([dict_wf]). *)
#[warnings="-register-all"]
Inductive pyval : Type :=
| PNone
| PBool (b : bool)
| PInt (z : Z)
| PFloat (f : float)
| PStr (s : string)
| PList (l : list pyval)
| PDict (d : list (string * pyval)).

Definition pydict : Type := list (string * pyval).

Definition dict_keys (d : pydict) : list string := map fst d.

Definition dict_wf (d : pydict) : Prop := NoDup (dict_keys d).

(** [k in d]. *)
Definition dict_contains (k : string) (d : pydict) : bool :=
  existsb (fun kv => String.eqb (fst kv) k) d.

(** [d.get(k, default)]. *)
Fixpoint dict_get (k : string) (d : pydict) (default : pyval) : pyval :=
  match d with
  | [] => default
  | (k', v) :: d' => if String.eqb k' k then v else dict_get k d' default
  end.

(** [{k: v for k, v in d.items() if k != key}]. *)
Definition dict_without (key : string) (d : pydict) : pydict :=
  filter (fun kv => negb (String.eqb (fst kv) key)) d.

Inductive exn : Type :=
| TypeError
| ValueError
| OverflowError
| AttributeError
| KeyError.

Inductive result (A : Type) : Type :=
| Ok (a : A)
| Raise (e : exn).

Arguments Ok {A} a.
Arguments Raise {A} e.

(** [d[k]]. *)
Fixpoint dict_getitem (k : string) (d : pydict) : result pyval :=
  match d with
  | [] => Raise KeyError
  | (k', v) :: d' => if String.eqb k' k then Ok v else dict_getitem k d'
  end.

(** [v.items()]: only a dict has the method. *)
Definition py_items (v : pyval) : result pydict :=
  match v with
  | PDict d => Ok d
  | _ => Raise AttributeError
  end.

(** The number a value is when compared with [>=]; [bool] is an [int]. *)
Definition as_number (v : pyval) : option pynum :=
  match v with
  | PBool b => Some (NumInt (Z.b2z b))
  | PInt z => Some (NumInt z)
  | PFloat f => Some (NumFloat f)
  | _ => None
  end.

(** [v >= t] for a float [t]: a [TypeError] unless [v] is a number. *)
Definition py_ge (v : pyval) (t : float) : result bool :=
  match as_number v with
  | Some n => Ok (num_ge n (NumFloat t))
  | None => Raise TypeError
  end.

(** [float(z)] for an [int]: the nearest float, [OverflowError] when the
    integer is out of the range of a float. *)
Definition int_to_float (z : Z) : result float :=
  match float_of_dyadic z 0 with
  | S754_infinity _ => Raise OverflowError
  | f => Ok f
  end.

Section Builtins.

(** [float(s)] for a [str]: the grammar of float literals and their
    correctly rounded conversion belong to the interpreter; [None] is a
    [ValueError]. *)
Variable float_of_str : string -> option float.

(** The builtin [float(v)]. *)
Definition py_float (v : pyval) : result float :=
  match v with
  | PFloat f => Ok f
  | PInt z => int_to_float z
  | PBool b => int_to_float (Z.b2z b)
  | PStr s =>
      match float_of_str s with
      | Some f => Ok f
      | None => Raise ValueError
      end
  | PNone | PList _ | PDict _ => Raise TypeError
  end.

End Builtins.

(** [int(f)] for a [float]: the integer part, towards zero; a NaN is a
    [ValueError] and an infinity an [OverflowError]. *)
Definition py_int (f : float) : result Z :=
  match f with
  | S754_nan => Raise ValueError
  | S754_infinity _ => Raise OverflowError
  | S754_zero _ => Ok 0
  | S754_finite s m e => Ok (cond_Zopp s (Z.shiftl (Zpos m) e))
  end.

(** [s.endswith(suffix)]: some tail of [s] is [suffix]. *)
Fixpoint endswith (s suffix : string) : bool :=
  if String.eqb s suffix then true
  else
    match s with
    | EmptyString => false
    | String _ s' => endswith s' suffix
    end.

(** [l or []] for an optional list. *)
Definition or_empty {A} (l : option (list A)) : list A :=
  match l with
  | Some l => l
  | None => []
  end.

(* ===================================================================== *)
(** ** Methods as state transformers *)
(* ===================================================================== *)

(** A method of an object of class [S] returning an [A]: it may raise,
    and it leaves the object in a new state either way. *)
Definition M (S A : Type) : Type := S -> result A * S.

Definition ret {S A} (a : A) : M S A := fun s => (Ok a, s).

Definition bind {S A B} (m : M S A) (k : A -> M S B) : M S B :=
  fun s =>
    match m s with
    | (Ok a, s') => k a s'
    | (Raise e, s') => (Raise e, s')
    end.

Definition gets {S A} (f : S -> A) : M S A := fun s => (Ok (f s), s).

Definition modify {S} (f : S -> S) : M S unit := fun s => (Ok tt, f s).

Definition lift {S A} (r : result A) : M S A := fun s => (r, s).

Declare Scope method_scope.
Delimit Scope method_scope with method.
Notation "x <- m ;; k" := (bind m (fun x => k))
  (at level 61, m at next level, right associativity) : method_scope.
Notation "m ;; k" := (bind m (fun _ => k))
  (at level 61, right associativity) : method_scope.

(** The value a call returns, and the state it leaves. *)
Definition eval {S A} (m : M S A) (s : S) : result A := fst (m s).
Definition exec {S A} (m : M S A) (s : S) : S := snd (m s).

(** [for x in l: body(x)]. *)
Fixpoint for_each {S A} (l : list A) (body : A -> M S unit) : M S unit :=
  match l with
  | [] => ret tt
  | x :: l' => bind (body x) (fun _ => for_each l' body)
  end.

(** [[x for x in l if p(x)]], where the test may raise. *)
Fixpoint filter_r {A} (p : A -> result bool) (l : list A) : result (list A) :=
  match l with
  | [] => Ok []
  | x :: l' =>
      match p x with
      | Raise e => Raise e
      | Ok b =>
          match filter_r p l' with
          | Raise e => Raise e
          | Ok r => Ok (if b then x :: r else r)
          end
      end
  end.

(** A method of a field: [get] reads the field of the enclosing object
    and [set] stores its new state back. *)
Definition zoom {S T A} (get : S -> T) (set : T -> S -> S) (m : M T A) : M S A :=
  fun s => let (r, t') := m (get s) in (r, set t' s).

(** [for x in l: acc = body(acc)], where [body] is a method of [x]; the
    state is the list of the objects. *)
Fixpoint fold_each {S B} (body : B -> M S B) (acc : B) (l : list S)
  : result B * list S :=
  match l with
  | [] => (Ok acc, [])
  | x :: l' =>
      match body acc x with
      | (Ok acc', x') =>
          let (r, l'') := fold_each body acc' l' in (r, x' :: l'')
      | (Raise e, x') => (Raise e, x' :: l')
      end
  end.

(** [[x.m() for x in l]]. *)
Definition each {S A} (m : M S A) : M (list S) (list A) :=
  fold_each (fun acc => bind m (fun a => ret (acc ++ [a]))) [].

Local Open Scope method_scope.

(* ===================================================================== *)
(** ** The report model *)
(* ===================================================================== *)

Module ReturnCode.

(** Modelled from the spec: the [ReturnCode] enumeration is imported
    from [duplicate_code_detection], whose source is not at hand.  The
    interface description gives it [SUCCESS], of value 0, and a
    threshold-exceeded code of a value greater than 0 whose magnitude
    may carry diagnostic information. *)
Inductive t : Type :=
| SUCCESS
| THRESHOLD_EXCEEDED (magnitude : positive).

(** [code.value]. *)
Definition value (code : t) : Z :=
  match code with
  | SUCCESS => 0
  | THRESHOLD_EXCEEDED magnitude => Zpos magnitude
  end.

(** [a == b] on members of the enumeration. *)
Definition eqb (a b : t) : bool :=
  match a, b with
  | SUCCESS, SUCCESS => true
  | THRESHOLD_EXCEEDED m, THRESHOLD_EXCEEDED n => Pos.eqb m n
  | _, _ => false
  end.

End ReturnCode.

Module FileSimilarity.

(** Similarity between two files.  Annotations are not enforced, so
    the three data fields hold whatever was stored in them; [None] is
    the default of both line counts. *)
Record t : Type := mk {
  source_file : string;
  target_file : string;
  similarity_percentage : pyval;
  source_loc : pyval;
  target_loc : pyval
}.

Definition to_dict : M t pyval :=
  gets (fun self =>
    PDict [ ("source_file", PStr (source_file self));
            ("target_file", PStr (target_file self));
            ("similarity_percentage", similarity_percentage self);
            ("source_loc", source_loc self);
            ("target_loc", target_loc self) ]).

End FileSimilarity.

Module SimilarityReport.

Record t : Type := mk {
  file_path : string;
  similarities : list FileSimilarity.t;
  loc_count : pyval
}.

(** [SimilarityReport(file_path=file_path)]. *)
Definition new (file_path : string) : t := mk file_path [] PNone.

Definition set_similarities (l : list FileSimilarity.t) (self : t) : t :=
  mk (file_path self) l (loc_count self).

(** [self.loc_count = v]. *)
Definition set_loc_count (v : pyval) : M t unit :=
  modify (fun self => mk (file_path self) (similarities self) v).

Definition add_similarity (similarity : FileSimilarity.t) : M t unit :=
  modify (fun self => set_similarities (similarities self ++ [similarity]) self).

(** The default of [threshold], 30.0. *)
Definition default_threshold : float := Eval cbv in float_of_dyadic 30 0.

Definition get_high_similarities (threshold : float) : M t (list FileSimilarity.t) :=
  l <- gets similarities ;;
  lift (filter_r
          (fun s => py_ge (FileSimilarity.similarity_percentage s) threshold) l).

Definition to_dict : M t pyval :=
  fp <- gets file_path ;;
  lc <- gets loc_count ;;
  sims <- zoom similarities set_similarities (each FileSimilarity.to_dict) ;;
  ret (PDict [ ("file_path", PStr fp);
               ("loc_count", lc);
               ("similarities", PList sims) ]).

End SimilarityReport.

Module DetectionResult.

Record t : Type := mk {
  return_code : ReturnCode.t;
  reports : list SimilarityReport.t;
  raw_data : pydict
}.

Definition set_reports (l : list SimilarityReport.t) (self : t) : t :=
  mk (return_code self) l (raw_data self).

Definition is_success : M t bool :=
  rc <- gets return_code ;;
  ret (ReturnCode.eqb rc ReturnCode.SUCCESS).

Definition has_duplications : M t bool :=
  l <- gets reports ;;
  ret (Nat.ltb 0 (length l)).

(** The inner loop: [for similarity in high: critical.append(similarity)]. *)
Definition append_all (critical high : list FileSimilarity.t)
  : list FileSimilarity.t :=
  fold_left (fun c similarity => c ++ [similarity]) high critical.

(** The default of [threshold], 50.0. *)
Definition default_threshold : float := Eval cbv in float_of_dyadic 50 0.

Definition get_critical_duplications (threshold : float)
  : M t (list FileSimilarity.t) :=
  zoom reports set_reports
    (fold_each
       (fun critical =>
          high <- SimilarityReport.get_high_similarities threshold ;;
          ret (append_all critical high))
       []).

Definition to_dict : M t pyval :=
  rc <- gets return_code ;;
  success <- is_success ;;
  dup <- has_duplications ;;
  reps <- zoom reports set_reports (each SimilarityReport.to_dict) ;;
  raw <- gets raw_data ;;
  ret (PDict [ ("return_code", PInt (ReturnCode.value rc));
               ("success", PBool success);
               ("has_duplications", PBool dup);
               ("reports", PList reps);
               ("raw_data", PDict raw) ]).

End DetectionResult.

(* ===================================================================== *)
(** ** The detector and the aggregation of raw results *)
(* ===================================================================== *)

Module RunArgs.

(** The keyword arguments of a call of [run]. *)
Record t : Type := mk {
  fail_threshold : Z;
  directories : option (list string);
  files : option (list string);
  ignore_directories : list string;
  ignore_files : list string;
  json_output : bool;
  project_root_dir : string;
  file_extensions : list string;
  ignore_threshold : Z;
  only_code : bool;
  csv_output : string;
  show_loc : bool
}.

End RunArgs.

Module DuplicateCodeDetector.

Record t : Type := mk {
  fail_threshold : Z;
  ignore_threshold : Z;
  file_extensions : list string;
  only_code : bool;
  show_loc : bool
}.

Definition default_extensions : list string :=
  ["py"; "js"; "ts"; "java"; "cpp"; "c"; "h"].

(** [__init__]: [file_extensions or [...]] falls back on the default
    list for [None] and for an empty list alike. *)
Definition init (fail_threshold ignore_threshold : Z)
    (file_extensions : option (list string)) (only_code show_loc : bool) : t :=
  mk fail_threshold ignore_threshold
     match file_extensions with
     | Some (e :: l) => e :: l
     | _ => default_extensions
     end
     only_code show_loc.

Section ProcessResult.

Variable float_of_str : string -> option float.

(** The [FileSimilarity] built for one item of a file's mapping; the
    report under construction is read for its [loc_count]. *)
Definition make_similarity (file_path target_file : string)
    (similarity_data : pyval) : M SimilarityReport.t FileSimilarity.t :=
  match similarity_data with
  | PDict d =>
      loc <- gets SimilarityReport.loc_count ;;
      ret (FileSimilarity.mk file_path target_file
             (dict_get "Similarity" d (PFloat (S754_zero false)))
             loc
             (dict_get "#LoC" d PNone))
  | _ =>
      pct <- lift (py_float float_of_str similarity_data) ;;
      loc <- gets SimilarityReport.loc_count ;;
      ret (FileSimilarity.mk file_path target_file (PFloat pct) loc PNone)
  end.

(** [for target_file, similarity_data in items: ...], the loop that adds
    the similarities to the report under construction. *)
Definition add_items (file_path : string) (items : pydict) : M SimilarityReport.t unit :=
  for_each items
    (fun item =>
       similarity <- make_similarity file_path (fst item) (snd item) ;;
       SimilarityReport.add_similarity similarity).

(** The body of the loop over [raw_data.items()] up to the test on
    [report.similarities], run on the fresh report of [file_path]. *)
Definition fill_report (self : t) (file_path : string) (similarities : pyval)
  : M SimilarityReport.t unit :=
  similarities <-
    match similarities with
    | PDict d =>
        if show_loc self && dict_contains "#LoC" d then
          loc <- lift (dict_getitem "#LoC" d) ;;
          SimilarityReport.set_loc_count loc ;;
          ret (PDict (dict_without "#LoC" d))
        else ret similarities
    | _ => ret similarities
    end ;;
  items <- lift (py_items similarities) ;;
  add_items file_path items.

(** [if report.similarities:]. *)
Definition has_similarities (report : SimilarityReport.t) : bool :=
  match SimilarityReport.similarities report with
  | [] => false
  | _ :: _ => true
  end.

(** The loop over [raw_data.items()], [reports] being the list built
    so far. *)
Fixpoint process_items (self : t) (items : pydict)
    (reports : list SimilarityReport.t) : result (list SimilarityReport.t) :=
  match items with
  | [] => Ok reports
  | (file_path, similarities) :: items' =>
      match fill_report self file_path similarities
              (SimilarityReport.new file_path) with
      | (Raise e, _) => Raise e
      | (Ok _, report) =>
          process_items self items'
            (if has_similarities report then reports ++ [report] else reports)
      end
  end.

Definition _process_result (self : t) (return_code : ReturnCode.t)
    (raw_data : pydict) : result DetectionResult.t :=
  match process_items self raw_data [] with
  | Raise e => Raise e
  | Ok reports => Ok (DetectionResult.mk return_code reports raw_data)
  end.

End ProcessResult.

(** *** The aggregator as a method acting on the raw mapping

    [raw_data] and the mappings it holds are objects that the call
    could alter in place.  Below, the state is such an object: the
    operations [_process_result] performs on it are methods of the
    object, and what the call leaves of it is the final state. *)

(** For the body of the loop over the files the state is the pair of
    the mapping of the file, named [similarities] on entry, and the
    report under construction. *)
Definition on_entry {A} (m : M pyval A) : M (pyval * SimilarityReport.t) A :=
  zoom fst (fun similarities s => (similarities, snd s)) m.

Definition on_report {A} (m : M SimilarityReport.t A)
  : M (pyval * SimilarityReport.t) A :=
  zoom snd (fun report s => (fst s, report)) m.

(** [self.show_loc and isinstance(similarities, dict) and "#LoC" in
    similarities]. *)
Definition shows_loc (self : t) : M pyval bool :=
  gets (fun similarities =>
          show_loc self &&
          match similarities with
          | PDict d => dict_contains "#LoC" d
          | _ => false
          end).

(** [similarities[key]], after the test that [similarities] is a dict. *)
Definition getitem (key : string) : M pyval pyval :=
  similarities <- gets (fun v => v) ;;
  lift match similarities with
       | PDict d => dict_getitem key d
       | _ => Raise TypeError
       end.

(** [similarities.items()]. *)
Definition items : M pyval pydict :=
  similarities <- gets (fun v => v) ;;
  lift (py_items similarities).

Section ProcessResultOn.

Variable float_of_str : string -> option float.

(** The body of the loop over [raw_data.items()] up to the test on
    [report.similarities].  The comprehension builds a new dict and
    rebinds the name [similarities] to it: the mapping of the file is
    only read. *)
Definition fill_report_on (self : t) (file_path : string)
  : M (pyval * SimilarityReport.t) unit :=
  extract <- on_entry (shows_loc self) ;;
  similarities <-
    (if extract : bool then
       loc <- on_entry (getitem "#LoC") ;;
       on_report (SimilarityReport.set_loc_count loc) ;;
       all <- on_entry items ;;
       ret (dict_without "#LoC" all)
     else on_entry items) ;;
  on_report (add_items float_of_str file_path similarities).

(** One turn of the loop over [raw_data.items()], as a method of the
    mapping of the file; [reports] is the list built so far. *)
Definition process_entry_on (self : t) (file_path : string)
    (reports : list SimilarityReport.t) : M pyval (list SimilarityReport.t) :=
  fun similarities =>
    match fill_report_on self file_path
            (similarities, SimilarityReport.new file_path) with
    | (Raise e, (similarities', _)) => (Raise e, similarities')
    | (Ok _, (similarities', report)) =>
        (Ok (if has_similarities report then reports ++ [report] else reports),
         similarities')
    end.

(** [_process_result] as a method of the object [raw_data]: the result
    holds the object itself, so its [raw_data] is what the call leaves
    of it. *)
Definition _process_result_on (self : t) (return_code : ReturnCode.t)
  : M pydict DetectionResult.t :=
  reports <-
    fold_each
      (fun reports =>
         file_path <- gets fst ;;
         zoom snd (fun similarities entry => (fst entry, similarities))
           (process_entry_on self file_path reports))
      [] ;;
  raw_data <- gets (fun raw_data => raw_data) ;;
  ret (DetectionResult.mk return_code reports raw_data).

End ProcessResultOn.

Section Detection.

Variable float_of_str : string -> option float.

(** Modelled from the spec: [run] is imported from
    [duplicate_code_detection], whose source is not at hand.  The
    interface description gives it the arguments below and the pair of a
    return code and the raw mapping as its result; it reads the files
    of the corpus and may raise. *)
Variable run : RunArgs.t -> result (ReturnCode.t * pydict).

Definition detect_in_directories (self : t) (directories : list string)
    (ignore_directories ignore_files : option (list string))
    (project_root_dir : string) : result DetectionResult.t :=
  let ignore_directories := or_empty ignore_directories in
  let ignore_files := or_empty ignore_files in
  match run (RunArgs.mk (fail_threshold self) (Some directories) None
               ignore_directories ignore_files true project_root_dir
               (file_extensions self) (ignore_threshold self) (only_code self)
               "" (show_loc self)) with
  | Raise e => Raise e
  | Ok (return_code, raw_data) => _process_result float_of_str self return_code raw_data
  end.

Definition detect_in_files (self : t) (files : list string)
    (ignore_files : option (list string)) (project_root_dir : string)
  : result DetectionResult.t :=
  let ignore_files := or_empty ignore_files in
  match run (RunArgs.mk (fail_threshold self) None (Some files)
               [] ignore_files true project_root_dir
               (file_extensions self) (ignore_threshold self) (only_code self)
               "" (show_loc self)) with
  | Raise e => Raise e
  | Ok (return_code, raw_data) => _process_result float_of_str self return_code raw_data
  end.

(** The ignore directory an exclude pattern stands for. *)
Definition ignore_directory (pattern : string) : string :=
  if endswith pattern "/" then pattern else (pattern ++ "/")%string.

(** The loop of [analyze_project] over [exclude_patterns]. *)
Definition ignore_directories_of (exclude_patterns : list string) : list string :=
  fold_left (fun ignore_directories pattern =>
               ignore_directories ++ [ignore_directory pattern])
    exclude_patterns [].

Definition analyze_project (self : t) (project_path : string)
    (exclude_patterns : option (list string)) : result DetectionResult.t :=
  let exclude_patterns := or_empty exclude_patterns in
  let ignore_directories := ignore_directories_of exclude_patterns in
  detect_in_directories self [project_path] (Some ignore_directories) None
    project_path.

End Detection.

End DuplicateCodeDetector.

(* ===================================================================== *)
(** ** The convenience functions *)
(* ===================================================================== *)

(** The parameters of [DuplicateCodeDetector] that the convenience
    functions do not set themselves: the names that [**kwargs] may
    bring. *)
Definition accepted_keyword (name : string) : bool :=
  existsb (String.eqb name)
    ["fail_threshold"; "file_extensions"; "only_code"; "show_loc"].

(** A keyword argument passed on through [**kwargs]: one of the
    parameters of [DuplicateCodeDetector] with a value of its type, or
    a keyword of any name that is none of the accepted ones. *)
Inductive kwarg : Type :=
| Kw_fail_threshold (v : Z)
| Kw_ignore_threshold (v : Z)
| Kw_file_extensions (v : option (list string))
| Kw_only_code (v : bool)
| Kw_show_loc (v : bool)
| Kw_other (name : string) (v : pyval) (other : accepted_keyword name = false).

(** The name of a keyword argument. *)
Definition kwarg_name (k : kwarg) : string :=
  match k with
  | Kw_fail_threshold _ => "fail_threshold"
  | Kw_ignore_threshold _ => "ignore_threshold"
  | Kw_file_extensions _ => "file_extensions"
  | Kw_only_code _ => "only_code"
  | Kw_show_loc _ => "show_loc"
  | Kw_other name _ _ => name
  end.

(** A keyword that the call [DuplicateCodeDetector(ignore_threshold=...,
    **kwargs)] refuses: [ignore_threshold] a second time, or a name that
    is no parameter; that is, any name but the accepted ones. *)
Definition refused_kwarg (k : kwarg) : bool :=
  negb (accepted_keyword (kwarg_name k)).

Fixpoint kw_fail_threshold (kwargs : list kwarg) (default : Z) : Z :=
  match kwargs with
  | [] => default
  | Kw_fail_threshold v :: _ => v
  | _ :: kwargs' => kw_fail_threshold kwargs' default
  end.

Fixpoint kw_file_extensions (kwargs : list kwarg) (default : option (list string))
  : option (list string) :=
  match kwargs with
  | [] => default
  | Kw_file_extensions v :: _ => v
  | _ :: kwargs' => kw_file_extensions kwargs' default
  end.

Fixpoint kw_only_code (kwargs : list kwarg) (default : bool) : bool :=
  match kwargs with
  | [] => default
  | Kw_only_code v :: _ => v
  | _ :: kwargs' => kw_only_code kwargs' default
  end.

Fixpoint kw_show_loc (kwargs : list kwarg) (default : bool) : bool :=
  match kwargs with
  | [] => default
  | Kw_show_loc v :: _ => v
  | _ :: kwargs' => kw_show_loc kwargs' default
  end.

(** [DuplicateCodeDetector(ignore_threshold=ignore_threshold, **kwargs)],
    with the defaults of [__init__] for what [kwargs] leaves out. *)
Definition new_detector (ignore_threshold : Z) (kwargs : list kwarg)
  : result DuplicateCodeDetector.t :=
  if existsb refused_kwarg kwargs then Raise TypeError
  else
    Ok (DuplicateCodeDetector.init
          (kw_fail_threshold kwargs 100) ignore_threshold
          (kw_file_extensions kwargs None)
          (kw_only_code kwargs false) (kw_show_loc kwargs true)).

Section Convenience.

Variable float_of_str : string -> option float.
Variable run : RunArgs.t -> result (ReturnCode.t * pydict).

Definition detect_duplicates_in_directories (directories : list string)
    (threshold : float) (kwargs : list kwarg) : result DetectionResult.t :=
  match py_int threshold with
  | Raise e => Raise e
  | Ok ignore_threshold =>
      match new_detector ignore_threshold kwargs with
      | Raise e => Raise e
      | Ok detector =>
          DuplicateCodeDetector.detect_in_directories float_of_str run
            detector directories None None ""
      end
  end.

Definition detect_duplicates_in_files (files : list string)
    (threshold : float) (kwargs : list kwarg) : result DetectionResult.t :=
  match py_int threshold with
  | Raise e => Raise e
  | Ok ignore_threshold =>
      match new_detector ignore_threshold kwargs with
      | Raise e => Raise e
      | Ok detector =>
          DuplicateCodeDetector.detect_in_files float_of_str run
            detector files None ""
      end
  end.

Definition analyze_project_duplicates (project_path : string)
    (threshold : float) (exclude_patterns : option (list string))
    (kwargs : list kwarg) : result DetectionResult.t :=
  match py_int threshold with
  | Raise e => Raise e
  | Ok ignore_threshold =>
      match new_detector ignore_threshold kwargs with
      | Raise e => Raise e
      | Ok detector =>
          DuplicateCodeDetector.analyze_project float_of_str run
            detector project_path exclude_patterns
      end
  end.

End Convenience.


(* ===================================================================== *)
(** ** Views used to state the properties *)
(* ===================================================================== *)

(** Every similarity of a result, report after report, each report in
    the order in which its similarities were added. *)
Definition all_similarities (r : DetectionResult.t) : list FileSimilarity.t :=
  concat (map SimilarityReport.similarities (DetectionResult.reports r)).

(** The percentage of [s] is a number and is at least [threshold]. *)
Definition at_least (threshold : float) (s : FileSimilarity.t) : bool :=
  match as_number (FileSimilarity.similarity_percentage s) with
  | Some n => num_ge n (NumFloat threshold)
  | None => false
  end.

(** The percentage of [s] is a number, as its annotation says. *)
Definition numeric_percentage (s : FileSimilarity.t) : Prop :=
  as_number (FileSimilarity.similarity_percentage s) <> None.

Definition numeric_percentages (r : DetectionResult.t) : Prop :=
  Forall numeric_percentage (all_similarities r).

(** The test of the comprehension in [get_high_similarities]. *)
Definition reaches (threshold : float) (s : FileSimilarity.t) : result bool :=
  py_ge (FileSimilarity.similarity_percentage s) threshold.

(** The document of a similarity, and of a report. *)
Definition similarity_document (s : FileSimilarity.t) (v : pyval) : Prop :=
  v = PDict [ ("source_file", PStr (FileSimilarity.source_file s));
              ("target_file", PStr (FileSimilarity.target_file s));
              ("similarity_percentage", FileSimilarity.similarity_percentage s);
              ("source_loc", FileSimilarity.source_loc s);
              ("target_loc", FileSimilarity.target_loc s) ].

Definition report_document (report : SimilarityReport.t) (v : pyval) : Prop :=
  exists sims,
    Forall2 similarity_document (SimilarityReport.similarities report) sims /\
    v = PDict [ ("file_path", PStr (SimilarityReport.file_path report));
                ("loc_count", SimilarityReport.loc_count report);
                ("similarities", PList sims) ].

(** The value of a call that returned. *)
Definition returned (r : result pyval) : pyval :=
  match r with
  | Ok v => v
  | Raise _ => PNone
  end.

(** What an item of a file's mapping becomes: the key is the target
    file; a nested mapping gives the percentage at its key ["Similarity"]
    (0.0 without it) and the target line count at its key ["#LoC"]
    ([None] without it); any other value is converted by [float]. *)
Definition similarity_of_item (float_of_str : string -> option float)
    (item : string * pyval) (s : FileSimilarity.t) : Prop :=
  FileSimilarity.target_file s = fst item /\
  match snd item with
  | PDict d =>
      FileSimilarity.similarity_percentage s
      = dict_get "Similarity" d (PFloat (S754_zero false)) /\
      FileSimilarity.target_loc s = dict_get "#LoC" d PNone
  | plain =>
      exists f, py_float float_of_str plain = Ok f /\
                FileSimilarity.similarity_percentage s = PFloat f /\
                FileSimilarity.target_loc s = PNone
  end.

(** The items of a file's mapping that are read as similarities: all
    but the line count when the detector shows line counts. *)
Definition similarity_items (self : DuplicateCodeDetector.t) (d : pydict) : pydict :=
  if DuplicateCodeDetector.show_loc self && dict_contains "#LoC" d
  then dict_without "#LoC" d
  else d.

(** The line count read for a file: the value at ["#LoC"] when the
    detector shows line counts and the key is there, [None] otherwise. *)
Definition entry_loc (self : DuplicateCodeDetector.t) (d : pydict) : pyval :=
  if DuplicateCodeDetector.show_loc self && dict_contains "#LoC" d
  then dict_get "#LoC" d PNone
  else PNone.

(** The report that [_process_result] builds for an entry of [raw_data],
    before it decides whether to keep it. *)
Definition built_report (float_of_str : string -> option float)
    (self : DuplicateCodeDetector.t) (entry : string * pyval)
    (report : SimilarityReport.t) : Prop :=
  exists d,
    snd entry = PDict d /\
    SimilarityReport.file_path report = fst entry /\
    SimilarityReport.loc_count report = entry_loc self d /\
    Forall2
      (fun item s =>
         FileSimilarity.source_file s = fst entry /\
         FileSimilarity.source_loc s = entry_loc self d /\
         similarity_of_item float_of_str item s)
      (similarity_items self d) (SimilarityReport.similarities report).

(** An item value that [_process_result] can read: a nested mapping, or
    a value that [float] converts. *)
Definition readable_item (float_of_str : string -> option float)
    (item : string * pyval) : Prop :=
  match snd item with
  | PDict _ => True
  | plain => exists f, py_float float_of_str plain = Ok f
  end.

(** A raw mapping of the shape [run] documents: every file maps to a
    mapping whose similarity items are readable. *)
Definition readable_raw_data (float_of_str : string -> option float)
    (self : DuplicateCodeDetector.t) (raw_data : pydict) : Prop :=
  Forall
    (fun entry =>
       exists d, snd entry = PDict d /\
                 Forall (readable_item float_of_str) (similarity_items self d))
    raw_data.

(** The percentage of [s] is a number other than a NaN. *)
Definition ordered_percentage (s : FileSimilarity.t) : Prop :=
  exists n x,
    as_number (FileSimilarity.similarity_percentage s) = Some n /\
    num_value n = Some x.

(** The mapping of an entry of [raw_data] has an item that is read as a
    similarity. *)
Definition has_items (self : DuplicateCodeDetector.t) (entry : string * pyval) : bool :=
  match snd entry with
  | PDict d =>
      match similarity_items self d with
      | [] => false
      | _ :: _ => true
      end
  | _ => false
  end.

(** The percentage that a nested mapping gives is a number. *)
Definition numeric_item (item : string * pyval) : Prop :=
  match snd item with
  | PDict d => as_number (dict_get "Similarity" d (PFloat (S754_zero false))) <> None
  | _ => True
  end.

(** Every report has a similarity, and every similarity carries the
    file path and the line count of its report. *)
Definition consistent_reports (r : DetectionResult.t) : Prop :=
  Forall
    (fun report =>
       SimilarityReport.similarities report <> [] /\
       Forall
         (fun s =>
            FileSimilarity.source_file s = SimilarityReport.file_path report /\
            FileSimilarity.source_loc s = SimilarityReport.loc_count report)
         (SimilarityReport.similarities report))
    (DetectionResult.reports r).

(** The three convenience functions raise [e] under [threshold] and
    [kwargs], whatever else they are given. *)
Definition convenience_raises (float_of_str : string -> option float)
    (run : RunArgs.t -> result (ReturnCode.t * pydict))
    (threshold : float) (kwargs : list kwarg) (e : exn) : Prop :=
  (forall directories,
     detect_duplicates_in_directories float_of_str run directories threshold kwargs
     = Raise e)
  /\ (forall files,
        detect_duplicates_in_files float_of_str run files threshold kwargs
        = Raise e)
  /\ (forall project_path exclude_patterns,
        analyze_project_duplicates float_of_str run project_path threshold
          exclude_patterns kwargs
        = Raise e).

(** A method that never changes the state of its object. *)
Definition read_only {S A} (m : M S A) : Prop := forall s, exec m s = s.

(** A step of the loop over the files that leaves the mapping of the
    file as it was, whatever it does to the report. *)
Definition keeps_entry {A} (m : M (pyval * SimilarityReport.t) A) : Prop :=
  forall s, fst (exec m s) = fst s.

Module Examples.

(** 50.0, 80.0 and 99.5 *)
Definition f50 : float := Eval cbv in float_of_dyadic 50 0.
Definition f80 : float := Eval cbv in float_of_dyadic 80 0.
Definition f99_5 : float := Eval cbv in float_of_dyadic 199 (-1).

Definition sim (source target : string) (pct : pyval) : FileSimilarity.t :=
  FileSimilarity.mk source target pct PNone PNone.

(** A result with two reports; the percentages mix [float] and [int]. *)
Definition result2 : DetectionResult.t :=
  DetectionResult.mk ReturnCode.SUCCESS
    [ SimilarityReport.mk "a.py"
        [sim "a.py" "b.py" (PFloat f99_5); sim "a.py" "c.py" (PInt 20)] PNone;
      SimilarityReport.mk "b.py"
        [sim "b.py" "c.py" (PFloat f50); sim "b.py" "a.py" (PFloat f99_5)] PNone ]
    [].

(** A stand-in for the parser of float literals that accepts none; the
    mappings below hold no string value. *)
Definition no_literal : string -> option float := fun _ => None.

Definition detector : DuplicateCodeDetector.t :=
  DuplicateCodeDetector.init 100 15 None false true.

Definition detector_no_loc : DuplicateCodeDetector.t :=
  DuplicateCodeDetector.init 100 15 None false false.

(** What [run] returns with [show_loc]: nested mappings and a line
    count per file, also for a file without any similarity. *)
Definition raw_loc : pydict :=
  [ ("a.py", PDict [ ("#LoC", PInt 10);
                     ("b.py", PDict [("Similarity", PFloat f99_5); ("#LoC", PInt 7)]) ]);
    ("b.py", PDict [ ("#LoC", PInt 7);
                     ("a.py", PDict [("Similarity", PFloat f99_5); ("#LoC", PInt 10)]) ]);
    ("c.py", PDict [ ("#LoC", PInt 3) ]) ].

(** A mapping whose only entry holds nothing but a line count. *)
Definition raw_only_loc : pydict := [ ("a.py", PDict [("#LoC", PInt 10)]) ].

(** What [_process_result] makes of [raw_loc]: a report for each of
    [a.py] and [b.py], none for [c.py]. *)
Definition result_loc : DetectionResult.t :=
  DetectionResult.mk ReturnCode.SUCCESS
    [ SimilarityReport.mk "a.py"
        [ FileSimilarity.mk "a.py" "b.py" (PFloat f99_5) (PInt 10) (PInt 7) ]
        (PInt 10);
      SimilarityReport.mk "b.py"
        [ FileSimilarity.mk "b.py" "a.py" (PFloat f99_5) (PInt 7) (PInt 10) ]
        (PInt 7) ]
    raw_loc.

(** 10.0 *)
Definition f10 : float := Eval cbv in float_of_dyadic 10 0.

(** What [_process_result] makes of [raw_only_loc] when line counts
    are not shown. *)
Definition result_only_loc : DetectionResult.t :=
  DetectionResult.mk ReturnCode.SUCCESS
    [ SimilarityReport.mk "a.py"
        [ FileSimilarity.mk "a.py" "#LoC" (PFloat f10) PNone PNone ] PNone ]
    raw_only_loc.

(** A mapping without any similarity. *)
Definition raw_unique : pydict :=
  [ ("c.py", PDict [("#LoC", PInt 3)]); ("d.py", PDict []) ].

(** A detector with other thresholds and extensions than [detector]. *)
Definition detector_strict : DuplicateCodeDetector.t :=
  DuplicateCodeDetector.init 80 20 (Some ["py"]) true true.

(** A stand-in for [run] that finds the mapping [raw_loc] whatever it
    is asked, and one that fails. *)
Definition run_loc : RunArgs.t -> result (ReturnCode.t * pydict) :=
  fun _ => Ok (ReturnCode.SUCCESS, raw_loc).

Definition run_fails : RunArgs.t -> result (ReturnCode.t * pydict) :=
  fun _ => Raise ValueError.

(** 15.75 *)
Definition f15_75 : float := Eval cbv in float_of_dyadic 63 (-2).

End Examples.

(* ===================================================================== *)
(** ** Properties *)
(* ===================================================================== *)

(* --------------------------------------------------------------------- *)
(** *** The order on numbers *)

Lemma dyadic_compare_scale (n1 e1 n2 e2 k : Z) :
  k <= e1 -> k <= e2 ->
  dyadic_compare n1 e1 n2 e2 = (n1 * 2 ^ (e1 - k) ?= n2 * 2 ^ (e2 - k)).
Proof.
  intros H1 H2. unfold dyadic_compare.
  set (m := Z.min e1 e2).
  assert (Hm1 : m <= e1) by (subst m; lia).
  assert (Hm2 : m <= e2) by (subst m; lia).
  assert (Hk : k <= m) by (subst m; lia).
  replace (e1 - k) with ((e1 - m) + (m - k)) by lia.
  replace (e2 - k) with ((e2 - m) + (m - k)) by lia.
  rewrite !Z.pow_add_r by lia.
  rewrite !Z.mul_assoc.
  apply Zmult_compare_compat_r, Z.lt_gt, Z.pow_pos_nonneg; lia.
Qed.

Lemma xreal_leb_trans (x y z : xreal) :
  xreal_leb x y = true -> xreal_leb y z = true -> xreal_leb x z = true.
Proof.
  unfold xreal_leb.
  destruct x as [|n1 e1|], y as [|n2 e2|], z as [|n3 e3|];
    cbn [xreal_compare]; try reflexivity; try discriminate.
  set (k := Z.min e1 (Z.min e2 e3)).
  rewrite (dyadic_compare_scale n1 e1 n2 e2 k) by (subst k; lia).
  rewrite (dyadic_compare_scale n2 e2 n3 e3 k) by (subst k; lia).
  rewrite (dyadic_compare_scale n1 e1 n3 e3 k) by (subst k; lia).
  destruct (Z.compare_spec (n1 * 2 ^ (e1 - k)) (n2 * 2 ^ (e2 - k)));
    try discriminate;
    destruct (Z.compare_spec (n2 * 2 ^ (e2 - k)) (n3 * 2 ^ (e3 - k)));
    try discriminate;
    destruct (Z.compare_spec (n1 * 2 ^ (e1 - k)) (n3 * 2 ^ (e3 - k)));
    try reflexivity; intros _ _; exfalso; lia.
Qed.

Lemma num_le_trans (a b c : pynum) :
  num_le a b = true -> num_le b c = true -> num_le a c = true.
Proof.
  unfold num_le.
  destruct (num_value a) as [x|]; [|discriminate].
  destruct (num_value b) as [y|]; [|discriminate].
  destruct (num_value c) as [z|]; [|discriminate].
  apply xreal_leb_trans.
Qed.

Lemma xreal_leb_refl (x : xreal) : xreal_leb x x = true.
Proof.
  destruct x as [|n e|]; try reflexivity.
  unfold xreal_leb, xreal_compare, dyadic_compare.
  now rewrite Z.compare_refl.
Qed.

Lemma num_le_refl (a : pynum) : num_value a <> None -> num_le a a = true.
Proof.
  unfold num_le. destruct (num_value a) as [x|]; [intros _|congruence].
  apply xreal_leb_refl.
Qed.

(* --------------------------------------------------------------------- *)
(** *** Agreement with the comparison of IEEE 754

    A float of Python is a binary64 number: its mantissa is canonical
    for its exponent ([valid_binary]).  On such numbers the exact
    comparison above is the one of IEEE 754, which looks at the
    exponents first. *)

Lemma digits2_pos_bounds (m : positive) :
  2 ^ (Zpos (digits2_pos m) - 1) <= Zpos m < 2 ^ Zpos (digits2_pos m).
Proof.
  induction m as [m IH|m IH|]; cbn [digits2_pos].
  - rewrite Pos2Z.inj_succ.
    replace (Z.succ (Zpos (digits2_pos m)) - 1) with (Z.succ (Zpos (digits2_pos m) - 1)) by lia.
    rewrite !Z.pow_succ_r by lia. lia.
  - rewrite Pos2Z.inj_succ.
    replace (Z.succ (Zpos (digits2_pos m)) - 1) with (Z.succ (Zpos (digits2_pos m) - 1)) by lia.
    rewrite !Z.pow_succ_r by lia. lia.
  - cbn. lia.
Qed.

Lemma canonical_exponent (m : positive) (e : Z) :
  canonical_mantissa prec emax m e = true ->
  e = Z.max (Zpos (digits2_pos m) + e - 53) (-1074).
Proof.
  unfold canonical_mantissa, fexp, emin, prec, emax. intros H.
  apply Z.eqb_eq in H. lia.
Qed.

Lemma canonical_lt (m1 m2 : positive) (e1 e2 : Z) :
  canonical_mantissa prec emax m1 e1 = true ->
  canonical_mantissa prec emax m2 e2 = true ->
  e1 < e2 ->
  Zpos m1 < Zpos m2 * 2 ^ (e2 - e1).
Proof.
  intros H1 H2 Hlt.
  apply canonical_exponent in H1, H2.
  pose proof (digits2_pos_bounds m1) as [_ Hm1].
  pose proof (digits2_pos_bounds m2) as [Hm2 _].
  assert (Hd2 : Zpos (digits2_pos m2) = 53) by lia.
  assert (Hd1 : Zpos (digits2_pos m1) <= 53) by lia.
  rewrite Hd2 in Hm2.
  assert (Zpos m1 < 2 ^ 53).
  { eapply Z.lt_le_trans; [exact Hm1|]. apply Z.pow_le_mono_r; lia. }
  assert (2 ^ 1 <= 2 ^ (e2 - e1)) by (apply Z.pow_le_mono_r; lia).
  change (2 ^ 53) with (2 * 2 ^ (53 - 1)) in H.
  change (2 ^ 1) with 2 in H0.
  nia.
Qed.

Lemma dyadic_compare_pos (m1 m2 : positive) (e1 e2 : Z) :
  canonical_mantissa prec emax m1 e1 = true ->
  canonical_mantissa prec emax m2 e2 = true ->
  dyadic_compare (Zpos m1) e1 (Zpos m2) e2
  = match e1 ?= e2 with
    | Lt => Lt
    | Gt => Gt
    | Eq => Pos.compare_cont Eq m1 m2
    end.
Proof.
  intros H1 H2. unfold dyadic_compare.
  destruct (Z.compare_spec e1 e2) as [->|Hlt|Hgt].
  - rewrite Z.min_id, Z.sub_diag, !Z.mul_1_r. reflexivity.
  - rewrite Z.min_l, Z.sub_diag, Z.mul_1_r by lia.
    apply Z.compare_lt_iff. now apply canonical_lt.
  - rewrite Z.min_r, Z.sub_diag, Z.mul_1_r by lia.
    apply Z.compare_gt_iff. now apply canonical_lt.
Qed.

Lemma dyadic_compare_opp (n1 e1 n2 e2 : Z) :
  dyadic_compare (- n1) e1 (- n2) e2 = CompOpp (dyadic_compare n1 e1 n2 e2).
Proof.
  unfold dyadic_compare. rewrite !Z.mul_opp_l, Z.compare_opp.
  apply Z.compare_antisym.
Qed.

Lemma dyadic_compare_signs (n1 e1 n2 e2 : Z) :
  n1 <= 0 -> 0 <= n2 -> n1 < n2 -> dyadic_compare n1 e1 n2 e2 = Lt.
Proof.
  intros H1 H2 Hlt. unfold dyadic_compare. apply Z.compare_lt_iff.
  assert (0 < 2 ^ (e1 - Z.min e1 e2)) by (apply Z.pow_pos_nonneg; lia).
  assert (0 < 2 ^ (e2 - Z.min e1 e2)) by (apply Z.pow_pos_nonneg; lia).
  nia.
Qed.

Lemma dyadic_compare_signs_gt (n1 e1 n2 e2 : Z) :
  0 <= n1 -> n2 <= 0 -> n2 < n1 -> dyadic_compare n1 e1 n2 e2 = Gt.
Proof.
  intros H1 H2 Hlt. unfold dyadic_compare. apply Z.compare_gt_iff.
  assert (0 < 2 ^ (e1 - Z.min e1 e2)) by (apply Z.pow_pos_nonneg; lia).
  assert (0 < 2 ^ (e2 - Z.min e1 e2)) by (apply Z.pow_pos_nonneg; lia).
  nia.
Qed.

(** On binary64 numbers the exact comparison is the comparison of
    IEEE 754. *)
Lemma float_compare_IEEE (a b : float) :
  valid_binary prec emax a = true ->
  valid_binary prec emax b = true ->
  SFcompare a b
  = match float_value a, float_value b with
    | Some x, Some y => Some (xreal_compare x y)
    | _, _ => None
    end.
Proof.
  destruct a as [sa|sa| |sa ma ea], b as [sb|sb| |sb mb eb];
    cbn [valid_binary float_value SFcompare xreal_compare];
    try (destruct sa); try (destruct sb); try reflexivity; try discriminate;
    unfold bounded; intros Ha Hb;
    try apply andb_prop in Ha as [Ha _]; try apply andb_prop in Hb as [Hb _];
    cbn [cond_Zopp]; f_equal; symmetry.
  all: try (apply dyadic_compare_signs; lia).
  all: try (apply dyadic_compare_signs_gt; lia).
  - change (Z.opp (Zpos ma)) with (- Zpos ma). change (Z.opp (Zpos mb)) with (- Zpos mb).
    rewrite dyadic_compare_opp, dyadic_compare_pos by assumption.
    now destruct (ea ?= eb).
  - now apply dyadic_compare_pos.
Qed.

Lemma float_le_IEEE (a b : float) :
  valid_binary prec emax a = true ->
  valid_binary prec emax b = true ->
  float_le a b = SFleb a b.
Proof.
  intros Ha Hb. unfold float_le, num_le, SFleb, xreal_leb. cbn [num_value].
  rewrite (float_compare_IEEE a b Ha Hb).
  destruct (float_value a) as [x|]; [|reflexivity].
  destruct (float_value b) as [y|]; [|reflexivity].
  now destruct (xreal_compare x y).
Qed.

(** [>=] against a lower threshold: still defined, and still true when
    it was. *)
Lemma py_ge_lower (v : pyval) (t1 t2 : float) (b : bool) :
  float_le t1 t2 = true ->
  py_ge v t2 = Ok b ->
  exists b', py_ge v t1 = Ok b' /\ (b = true -> b' = true).
Proof.
  unfold py_ge, float_le. intros Hle.
  destruct (as_number v) as [n|]; [|discriminate].
  intros [= <-]. eexists; split; [reflexivity|].
  unfold num_ge. intros H. exact (num_le_trans _ _ _ Hle H).
Qed.

(* --------------------------------------------------------------------- *)
(** *** Loops and comprehensions *)

Lemma filter_r_app {A} (p : A -> result bool) (l1 l2 : list A) :
  filter_r p (l1 ++ l2) =
  match filter_r p l1 with
  | Raise e => Raise e
  | Ok a =>
      match filter_r p l2 with
      | Raise e => Raise e
      | Ok b => Ok (a ++ b)
      end
  end.
Proof.
  induction l1 as [|x l1 IH]; cbn [filter_r app].
  - now destruct (filter_r p l2).
  - destruct (p x) as [b|e]; [|reflexivity].
    rewrite IH. destruct (filter_r p l1) as [a|e]; [|reflexivity].
    destruct (filter_r p l2) as [c|e]; [|reflexivity].
    now destruct b.
Qed.

Lemma filter_r_total {A} (p : A -> result bool) (q : A -> bool) (l : list A) :
  Forall (fun x => p x = Ok (q x)) l -> filter_r p l = Ok (filter q l).
Proof.
  induction 1 as [|x l Hx _ IH]; cbn [filter_r filter]; [reflexivity|].
  now rewrite Hx, IH.
Qed.

Lemma append_all_app (critical high : list FileSimilarity.t) :
  DetectionResult.append_all critical high = critical ++ high.
Proof.
  unfold DetectionResult.append_all. revert critical.
  induction high as [|s high IH]; intros critical; cbn [fold_left].
  - now rewrite app_nil_r.
  - rewrite IH, <- app_assoc. reflexivity.
Qed.

(* --------------------------------------------------------------------- *)
(** *** Read-only methods *)

Lemma read_only_ret {S A} (a : A) : read_only (@ret S A a).
Proof. now intros s. Qed.

Lemma read_only_gets {S A} (f : S -> A) : read_only (gets f).
Proof. now intros s. Qed.

Lemma read_only_lift {S A} (r : result A) : read_only (@lift S A r).
Proof. now intros s. Qed.

Lemma read_only_bind {S A B} (m : M S A) (k : A -> M S B) :
  read_only m -> (forall a, read_only (k a)) -> read_only (bind m k).
Proof.
  intros Hm Hk s. specialize (Hm s). unfold exec, bind in *.
  destruct (m s) as [[a|e] s']; cbn [snd] in *; subst s'; [apply Hk|reflexivity].
Qed.

Lemma fold_each_read_only {S B} (body : B -> M S B) :
  (forall acc, read_only (body acc)) ->
  forall acc, read_only (fold_each body acc).
Proof.
  intros Hb acc l. unfold exec. revert acc.
  induction l as [|x l IH]; intros acc; cbn [fold_each]; [reflexivity|].
  pose proof (Hb acc x) as Hx. unfold exec in Hx.
  destruct (body acc x) as [[acc'|e] x']; cbn [snd] in Hx; subst x'.
  - specialize (IH acc'). destruct (fold_each body acc' l) as [r l''].
    cbn [snd] in *. now subst l''.
  - reflexivity.
Qed.

Lemma read_only_zoom {S T A} (get : S -> T) (set : T -> S -> S) (m : M T A) :
  (forall s, set (get s) s = s) -> read_only m -> read_only (zoom get set m).
Proof.
  intros Hlens Hm s. specialize (Hm (get s)). unfold exec, zoom in *.
  destruct (m (get s)) as [r t']. cbn [snd] in *. subst t'. apply Hlens.
Qed.

Lemma set_reports_same (r : DetectionResult.t) :
  DetectionResult.set_reports (DetectionResult.reports r) r = r.
Proof. now destruct r. Qed.

Lemma set_similarities_same (report : SimilarityReport.t) :
  SimilarityReport.set_similarities (SimilarityReport.similarities report) report
  = report.
Proof. now destruct report. Qed.

Create HintDb frame discriminated.
#[local] Hint Resolve read_only_ret read_only_gets read_only_lift
  set_reports_same set_similarities_same : frame.
#[local] Hint Extern 2 (read_only (bind _ _)) =>
  apply read_only_bind; [|intro] : frame.
#[local] Hint Extern 2 (read_only (zoom _ _ _)) => apply read_only_zoom : frame.
#[local] Hint Extern 2 (read_only (fold_each _ _)) =>
  apply fold_each_read_only; intro : frame.
#[local] Hint Extern 2 (read_only (each _)) =>
  apply fold_each_read_only; intro : frame.

Lemma get_high_similarities_read_only (threshold : float) :
  read_only (SimilarityReport.get_high_similarities threshold).
Proof. unfold SimilarityReport.get_high_similarities. auto with frame. Qed.

Lemma is_success_read_only : read_only DetectionResult.is_success.
Proof. unfold DetectionResult.is_success. auto with frame. Qed.

Lemma has_duplications_read_only : read_only DetectionResult.has_duplications.
Proof. unfold DetectionResult.has_duplications. auto with frame. Qed.

Lemma get_critical_duplications_read_only (threshold : float) :
  read_only (DetectionResult.get_critical_duplications threshold).
Proof.
  unfold DetectionResult.get_critical_duplications.
  pose proof (get_high_similarities_read_only threshold).
  auto 6 with frame.
Qed.

(* --------------------------------------------------------------------- *)
(** *** Critical duplications *)

Lemma get_high_similarities_run (threshold : float) (report : SimilarityReport.t) :
  SimilarityReport.get_high_similarities threshold report
  = (filter_r (reaches threshold) (SimilarityReport.similarities report), report).
Proof. reflexivity. Qed.

(** The two nested loops compute the comprehension's filter over the
    flattened similarities, after what [critical] already holds. *)
Lemma critical_loop (threshold : float) (reps : list SimilarityReport.t) :
  forall acc : list FileSimilarity.t,
  fst (fold_each
         (fun critical =>
            bind (SimilarityReport.get_high_similarities threshold)
                 (fun high => ret (DetectionResult.append_all critical high)))
         acc reps)
  = match filter_r (reaches threshold)
            (concat (map SimilarityReport.similarities reps)) with
    | Ok l => Ok (acc ++ l)
    | Raise e => Raise e
    end.
Proof.
  induction reps as [|report reps IH]; intros acc; cbn [fold_each map concat].
  - cbn. now rewrite app_nil_r.
  - rewrite filter_r_app. unfold bind at 1.
    rewrite get_high_similarities_run.
    destruct (filter_r (reaches threshold) (SimilarityReport.similarities report))
      as [high|e]; [|reflexivity].
    unfold ret at 1. specialize (IH (DetectionResult.append_all acc high)).
    destruct (fold_each _ (DetectionResult.append_all acc high) reps) as [r reps'].
    cbn [fst] in *. rewrite IH, append_all_app.
    destruct (filter_r (reaches threshold) _) as [l|e]; [|reflexivity].
    now rewrite app_assoc.
Qed.

Lemma get_critical_duplications_eval (threshold : float) (r : DetectionResult.t) :
  eval (DetectionResult.get_critical_duplications threshold) r
  = filter_r (reaches threshold) (all_similarities r).
Proof.
  unfold eval, DetectionResult.get_critical_duplications, zoom, all_similarities.
  pose proof (critical_loop threshold (DetectionResult.reports r) []) as H.
  destruct (fold_each _ [] (DetectionResult.reports r)) as [res reps'].
  cbn [fst] in *. rewrite H.
  now destruct (filter_r (reaches threshold) _).
Qed.

Lemma reaches_numeric (threshold : float) (s : FileSimilarity.t) :
  numeric_percentage s -> reaches threshold s = Ok (at_least threshold s).
Proof.
  unfold numeric_percentage, reaches, at_least, py_ge.
  now destruct (as_number (FileSimilarity.similarity_percentage s)).
Qed.

(** C1. For a result whose percentages are numbers,
    [get_critical_duplications(threshold)] returns the similarities of
    all the reports whose percentage is greater than or equal to the
    threshold, flattened in the order of the reports and, within a
    report, in the order of its list; a similarity whose percentage is
    the threshold itself is kept. *)
Theorem get_critical_duplications_flattened
    (r : DetectionResult.t) (threshold : float) :
  numeric_percentages r ->
  eval (DetectionResult.get_critical_duplications threshold) r
  = Ok (filter (at_least threshold) (all_similarities r))
  /\ (forall s,
        FileSimilarity.similarity_percentage s = PFloat threshold ->
        float_value threshold <> None ->
        at_least threshold s = true).
Proof.
  intros Hnum. split.
  - rewrite get_critical_duplications_eval.
    apply filter_r_total.
    eapply Forall_impl; [|exact Hnum].
    intros s Hs. now apply reaches_numeric.
  - intros s Hs Hnan. unfold at_least. rewrite Hs. cbn [as_number].
    unfold num_ge. now apply num_le_refl.
Qed.

Lemma get_critical_duplications_flattened_witness :
  numeric_percentages Examples.result2 /\
  eval (DetectionResult.get_critical_duplications Examples.f50) Examples.result2
  = Ok [ Examples.sim "a.py" "b.py" (PFloat Examples.f99_5);
         Examples.sim "b.py" "c.py" (PFloat Examples.f50);
         Examples.sim "b.py" "a.py" (PFloat Examples.f99_5) ].
Proof.
  assert (H : numeric_percentages Examples.result2).
  { repeat constructor; discriminate. }
  split; [exact H|].
  exact (proj1 (get_critical_duplications_flattened Examples.result2 Examples.f50 H)).
Defined.

Lemma filter_r_lower (t1 t2 : float) (l : list FileSimilarity.t) :
  float_le t1 t2 = true ->
  forall l2, filter_r (reaches t2) l = Ok l2 ->
  exists l1, filter_r (reaches t1) l = Ok l1 /\ incl l2 l1.
Proof.
  intros Hle. induction l as [|s l IH]; cbn [filter_r]; intros l2.
  - intros [= <-]. exists []. split; [reflexivity|apply incl_refl].
  - destruct (reaches t2 s) as [b|e] eqn:Hs; [|discriminate].
    destruct (filter_r (reaches t2) l) as [r2|e]; [|discriminate].
    intros [= <-].
    destruct (py_ge_lower _ _ _ _ Hle Hs) as (b' & Hs' & Hb).
    destruct (IH r2 eq_refl) as (r1 & Hr1 & Hincl).
    unfold reaches in *. rewrite Hs', Hr1. eexists; split; [reflexivity|].
    destruct b.
    + rewrite (Hb eq_refl). intros x [<-|Hx]; [now left|right; now apply Hincl].
    + destruct b'; [apply incl_tl|]; exact Hincl.
Qed.

(** C2. When [t1 <= t2], every entry of [get_critical_duplications(t2)]
    is an entry of [get_critical_duplications(t1)], which returns as
    well. *)
Theorem get_critical_duplications_antimonotone
    (r : DetectionResult.t) (t1 t2 : float) (l2 : list FileSimilarity.t) :
  float_le t1 t2 = true ->
  eval (DetectionResult.get_critical_duplications t2) r = Ok l2 ->
  exists l1,
    eval (DetectionResult.get_critical_duplications t1) r = Ok l1 /\
    forall s, In s l2 -> In s l1.
Proof.
  rewrite !get_critical_duplications_eval. intros Hle H2.
  destruct (filter_r_lower t1 t2 _ Hle _ H2) as (l1 & H1 & Hincl).
  exists l1. split; [exact H1|exact Hincl].
Qed.

Lemma get_critical_duplications_antimonotone_witness :
  float_le Examples.f50 Examples.f80 = true /\
  exists l1,
    eval (DetectionResult.get_critical_duplications Examples.f50) Examples.result2
    = Ok l1 /\
    forall s,
      In s [ Examples.sim "a.py" "b.py" (PFloat Examples.f99_5);
             Examples.sim "b.py" "a.py" (PFloat Examples.f99_5) ] ->
      In s l1.
Proof.
  split; [reflexivity|].
  apply (get_critical_duplications_antimonotone
           Examples.result2 Examples.f50 Examples.f80); reflexivity.
Defined.

(* --------------------------------------------------------------------- *)
(** *** Success, and the queries as read-only methods *)

(** C6. [is_success()] returns true exactly when [return_code] is
    [ReturnCode.SUCCESS], the code of value 0; under a return code of
    nonzero value it returns false. *)
Theorem is_success_iff_SUCCESS (r : DetectionResult.t) :
  (eval DetectionResult.is_success r = Ok true
   <-> DetectionResult.return_code r = ReturnCode.SUCCESS)
  /\ (ReturnCode.value (DetectionResult.return_code r) <> 0 ->
      eval DetectionResult.is_success r = Ok false)
  /\ ReturnCode.value ReturnCode.SUCCESS = 0.
Proof.
  destruct r as [rc reps raw]. cbn.
  destruct rc as [|magnitude]; cbn; repeat split;
    congruence || discriminate || reflexivity.
Qed.

Lemma is_success_iff_SUCCESS_witness :
  ReturnCode.value
    (DetectionResult.return_code
       (DetectionResult.mk (ReturnCode.THRESHOLD_EXCEEDED 2) [] [])) <> 0
  /\ eval DetectionResult.is_success
       (DetectionResult.mk (ReturnCode.THRESHOLD_EXCEEDED 2) [] []) = Ok false.
Proof.
  assert (H : ReturnCode.value
                (DetectionResult.return_code
                   (DetectionResult.mk (ReturnCode.THRESHOLD_EXCEEDED 2) [] [])) <> 0)
    by discriminate.
  split; [exact H|].
  exact (proj1 (proj2 (is_success_iff_SUCCESS
                         (DetectionResult.mk (ReturnCode.THRESHOLD_EXCEEDED 2) [] [])))
               H).
Defined.

(** C8. The queries [is_success()], [has_duplications()],
    [get_critical_duplications(threshold)] and, on any report,
    [get_high_similarities(threshold)] leave their object as it was:
    return code, reports with their contents, and raw data. *)
Theorem queries_leave_result_unchanged (r : DetectionResult.t) (threshold : float) :
  exec DetectionResult.is_success r = r
  /\ exec DetectionResult.has_duplications r = r
  /\ exec (DetectionResult.get_critical_duplications threshold) r = r
  /\ (forall report : SimilarityReport.t,
        exec (SimilarityReport.get_high_similarities threshold) report = report).
Proof.
  split; [|split; [|split]].
  - apply is_success_read_only.
  - apply has_duplications_read_only.
  - apply get_critical_duplications_read_only.
  - intros report. apply get_high_similarities_read_only.
Qed.

(* --------------------------------------------------------------------- *)
(** *** The serialised document *)

(** A comprehension over methods that only read returns the list of
    their values and keeps the objects. *)
Lemma each_reads {S A} (m : M S A) (f : S -> A) :
  (forall s, m s = (Ok (f s), s)) ->
  forall l, each m l = (Ok (map f l), l).
Proof.
  intros Hm l. unfold each.
  enough (H : forall acc,
             fold_each (fun acc => bind m (fun a => ret (acc ++ [a]))) acc l
             = (Ok (acc ++ map f l), l)) by apply (H []).
  induction l as [|x l IH]; intros acc; cbn [fold_each map].
  - now rewrite app_nil_r.
  - unfold bind at 1. rewrite Hm. unfold ret at 1.
    rewrite IH, <- app_assoc. reflexivity.
Qed.

Lemma Forall2_map_graph {A B} (R : A -> B -> Prop) (f : A -> B) (l : list A) :
  (forall x, R x (f x)) -> Forall2 R l (map f l).
Proof. intros H. induction l; cbn; constructor; auto. Qed.

Lemma FileSimilarity_to_dict_run (s : FileSimilarity.t) :
  exists v, FileSimilarity.to_dict s = (Ok v, s) /\ similarity_document s v.
Proof. eexists. split; reflexivity. Qed.

Lemma SimilarityReport_to_dict_run (report : SimilarityReport.t) :
  exists v, SimilarityReport.to_dict report = (Ok v, report) /\ report_document report v.
Proof.
  unfold SimilarityReport.to_dict, bind, gets, zoom.
  rewrite (each_reads FileSimilarity.to_dict (fun s => returned (eval FileSimilarity.to_dict s)))
    by reflexivity.
  rewrite set_similarities_same. eexists. split; [reflexivity|].
  eexists. split; [|reflexivity].
  apply Forall2_map_graph. intros s. reflexivity.
Qed.

Lemma DetectionResult_to_dict_run (r : DetectionResult.t) :
  exists reps,
    Forall2 report_document (DetectionResult.reports r) reps /\
    eval DetectionResult.to_dict r
    = Ok (PDict [ ("return_code", PInt (ReturnCode.value (DetectionResult.return_code r)));
                  ("success",
                   PBool (ReturnCode.eqb (DetectionResult.return_code r)
                            ReturnCode.SUCCESS));
                  ("has_duplications",
                   PBool (Nat.ltb 0 (length (DetectionResult.reports r))));
                  ("reports", PList reps);
                  ("raw_data", PDict (DetectionResult.raw_data r)) ]).
Proof.
  exists (map (fun report => returned (eval SimilarityReport.to_dict report))
              (DetectionResult.reports r)).
  split.
  - apply Forall2_map_graph. intros report.
    destruct (SimilarityReport_to_dict_run report) as (v & Hv & Hdoc).
    unfold eval. now rewrite Hv.
  - unfold eval, DetectionResult.to_dict, DetectionResult.is_success,
      DetectionResult.has_duplications, bind, gets, ret, zoom.
    rewrite (each_reads SimilarityReport.to_dict
               (fun report => returned (eval SimilarityReport.to_dict report))).
    + reflexivity.
    + intros report.
      destruct (SimilarityReport_to_dict_run report) as (v & Hv & _).
      unfold eval. now rewrite Hv.
Qed.

(** C7. [to_dict()] returns the document with exactly the keys
    [return_code], [success], [has_duplications], [reports] and
    [raw_data], where [success] is what [is_success()] returns,
    [has_duplications] what [has_duplications()] returns, each report is
    the document [{file_path, loc_count, similarities}] and each of its
    similarities the document [{source_file, target_file,
    similarity_percentage, source_loc, target_loc}]. *)
Theorem to_dict_document (r : DetectionResult.t) :
  exists (success dup : bool) (reps : list pyval),
    eval DetectionResult.is_success r = Ok success /\
    eval DetectionResult.has_duplications r = Ok dup /\
    Forall2 report_document (DetectionResult.reports r) reps /\
    eval DetectionResult.to_dict r
    = Ok (PDict [ ("return_code", PInt (ReturnCode.value (DetectionResult.return_code r)));
                  ("success", PBool success);
                  ("has_duplications", PBool dup);
                  ("reports", PList reps);
                  ("raw_data", PDict (DetectionResult.raw_data r)) ]).
Proof.
  exists (ReturnCode.eqb (DetectionResult.return_code r) ReturnCode.SUCCESS).
  exists (Nat.ltb 0 (length (DetectionResult.reports r))).
  exists (map (fun report => returned (eval SimilarityReport.to_dict report))
              (DetectionResult.reports r)).
  repeat split.
  - apply Forall2_map_graph. intros report.
    destruct (SimilarityReport_to_dict_run report) as (v & Hv & Hdoc).
    unfold eval. now rewrite Hv.
  - unfold eval, DetectionResult.to_dict, DetectionResult.is_success,
      DetectionResult.has_duplications, bind, gets, ret, zoom.
    rewrite (each_reads SimilarityReport.to_dict
               (fun report => returned (eval SimilarityReport.to_dict report))).
    + reflexivity.
    + intros report.
      destruct (SimilarityReport_to_dict_run report) as (v & Hv & _).
      unfold eval. now rewrite Hv.
Qed.

(* --------------------------------------------------------------------- *)
(** *** Dictionaries *)

Lemma dict_getitem_contains (k : string) (d : pydict) (default : pyval) :
  dict_contains k d = true -> dict_getitem k d = Ok (dict_get k d default).
Proof.
  unfold dict_contains.
  induction d as [|[k' v] d IH]; cbn [existsb dict_getitem dict_get fst].
  - discriminate.
  - destruct (String.eqb k' k); [reflexivity|exact IH].
Qed.


Lemma dict_wf_unique (d : pydict) (k : string) (v v' : pyval) :
  dict_wf d -> In (k, v) d -> In (k, v') d -> v = v'.
Proof.
  unfold dict_wf, dict_keys.
  induction d as [|[k0 v0] d IH]; cbn [map fst]; [contradiction|].
  intros Hnd [H1|H1] [H2|H2]; inversion Hnd as [|? ? Hnotin Hnd']; subst.
  - congruence.
  - inversion H1; subst. exfalso. apply Hnotin.
    change k with (fst (k, v')). now apply in_map.
  - inversion H2; subst. exfalso. apply Hnotin.
    change k with (fst (k, v)). now apply in_map.
  - now apply IH.
Qed.

Lemma Forall2_In_r {A B} (R : A -> B -> Prop) (l1 : list A) (l2 : list B) (b : B) :
  Forall2 R l1 l2 -> In b l2 -> exists a, In a l1 /\ R a b.
Proof.
  induction 1 as [|x y l1 l2 Hxy _ IH]; cbn [In]; [contradiction|].
  intros [<-|Hin].
  - exists x. auto.
  - destruct (IH Hin) as (a & Ha & HR). exists a. auto.
Qed.

(* --------------------------------------------------------------------- *)
(** *** Building the report of a file *)

Section Aggregation.

Variable float_of_str : string -> option float.
Variable self : DuplicateCodeDetector.t.

Local Abbreviation make_similarity :=
  (DuplicateCodeDetector.make_similarity float_of_str).
Local Abbreviation add_items := (DuplicateCodeDetector.add_items float_of_str).
Local Abbreviation fill_report := (DuplicateCodeDetector.fill_report float_of_str self).
Local Abbreviation process_items :=
  (DuplicateCodeDetector.process_items float_of_str self).
Local Abbreviation process_result :=
  (DuplicateCodeDetector._process_result float_of_str self).

Lemma make_similarity_ok (file_path target_file : string) (similarity_data : pyval)
    (report report' : SimilarityReport.t) (s : FileSimilarity.t) :
  make_similarity file_path target_file similarity_data report = (Ok s, report') ->
  report' = report /\
  FileSimilarity.source_file s = file_path /\
  FileSimilarity.source_loc s = SimilarityReport.loc_count report /\
  similarity_of_item float_of_str (target_file, similarity_data) s.
Proof.
  unfold DuplicateCodeDetector.make_similarity, similarity_of_item.
  destruct similarity_data as [|b|z|f|str|l|d];
    cbv [bind lift gets ret]; cbn [fst snd];
    try (destruct (py_float float_of_str _) as [pct|e] eqn:Hpct; [|discriminate]);
    intros [= <- <-]; cbn; repeat split; eauto.
Qed.

Lemma make_similarity_returns (file_path : string) (item : string * pyval)
    (report : SimilarityReport.t) :
  readable_item float_of_str item ->
  exists s, make_similarity file_path (fst item) (snd item) report = (Ok s, report).
Proof.
  unfold DuplicateCodeDetector.make_similarity, readable_item.
  destruct (snd item) as [|b|z|f|str|l|d];
    cbv [bind lift gets ret];
    try (intros [pct ->]); eexists; reflexivity.
Qed.

Lemma add_items_ok (file_path : string) (items : pydict) :
  forall (report report' : SimilarityReport.t) (u : unit),
  add_items file_path items report = (Ok u, report') ->
  SimilarityReport.file_path report' = SimilarityReport.file_path report /\
  SimilarityReport.loc_count report' = SimilarityReport.loc_count report /\
  exists sims,
    SimilarityReport.similarities report'
    = SimilarityReport.similarities report ++ sims /\
    Forall2
      (fun item s =>
         FileSimilarity.source_file s = file_path /\
         FileSimilarity.source_loc s = SimilarityReport.loc_count report /\
         similarity_of_item float_of_str item s)
      items sims.
Proof.
  unfold DuplicateCodeDetector.add_items.
  induction items as [|[k v] items IH]; intros report report' u; cbn [for_each].
  - intros H. inversion H; subst. split; [reflexivity|split; [reflexivity|]].
    exists []. split; [now rewrite app_nil_r|constructor].
  - unfold bind at 1. unfold bind at 1. cbn [fst snd].
    destruct (make_similarity file_path k v report) as [[s|e] report1] eqn:Hs;
      [|discriminate].
    apply make_similarity_ok in Hs as (-> & Hsrc & Hloc & Hitem).
    unfold SimilarityReport.add_similarity at 1, modify at 1.
    intros Hrest. apply IH in Hrest as (Hfp & Hlc & sims & Hsims & Hall).
    destruct report as [fp l lc]. cbn in *.
    split; [assumption|split; [assumption|]].
    exists (s :: sims). split.
    + now rewrite Hsims, <- app_assoc.
    + constructor; auto.
Qed.

Lemma add_items_returns (file_path : string) (items : pydict) :
  Forall (readable_item float_of_str) items ->
  forall report, exists report', add_items file_path items report = (Ok tt, report').
Proof.
  unfold DuplicateCodeDetector.add_items.
  induction 1 as [|item items Hitem _ IH]; intros report; cbn [for_each].
  - eexists. reflexivity.
  - unfold bind at 1. unfold bind at 1.
    destruct (make_similarity_returns file_path item report Hitem) as (s & ->).
    unfold SimilarityReport.add_similarity at 1, modify at 1. apply IH.
Qed.

Lemma fill_report_run (file_path : string) (d : pydict) :
  fill_report file_path (PDict d) (SimilarityReport.new file_path)
  = add_items file_path (similarity_items self d)
      (SimilarityReport.mk file_path [] (entry_loc self d)).
Proof.
  unfold DuplicateCodeDetector.fill_report, similarity_items, entry_loc.
  destruct (DuplicateCodeDetector.show_loc self && dict_contains "#LoC" d) eqn:Hloc.
  - apply andb_prop in Hloc as [_ Hin].
    cbv [bind lift]. rewrite (dict_getitem_contains _ _ PNone Hin). reflexivity.
  - reflexivity.
Qed.

Lemma fill_report_ok (file_path : string) (similarities : pyval)
    (report : SimilarityReport.t) (u : unit) :
  fill_report file_path similarities (SimilarityReport.new file_path) = (Ok u, report) ->
  built_report float_of_str self (file_path, similarities) report.
Proof.
  destruct similarities as [|b|z|f|str|l|d]; try discriminate.
  rewrite fill_report_run. intros H.
  apply add_items_ok in H as (Hfp & Hlc & sims & Hsims & Hall).
  exists d. cbn in *. rewrite Hsims. auto.
Qed.

Lemma fill_report_returns (file_path : string) (d : pydict) :
  Forall (readable_item float_of_str) (similarity_items self d) ->
  exists report,
    fill_report file_path (PDict d) (SimilarityReport.new file_path) = (Ok tt, report).
Proof.
  intros H. rewrite fill_report_run. now apply add_items_returns.
Qed.

(* --------------------------------------------------------------------- *)
(** *** The loop over the files *)

Lemma process_items_ok (items : pydict) :
  forall acc reports : list SimilarityReport.t,
  process_items items acc = Ok reports ->
  exists builts,
    Forall2 (built_report float_of_str self) items builts /\
    reports = acc ++ filter DuplicateCodeDetector.has_similarities builts.
Proof.
  induction items as [|[file_path similarities] items IH]; intros acc reports;
    cbn [DuplicateCodeDetector.process_items].
  - intros [= <-]. exists []. split; [constructor|]. cbn. now rewrite app_nil_r.
  - destruct (DuplicateCodeDetector.fill_report _ _ _ _ _) as [[u|e] report] eqn:Hfill;
      [|discriminate].
    apply fill_report_ok in Hfill.
    intros H. apply IH in H as (builts & Hall & ->).
    exists (report :: builts). split; [now constructor|].
    cbn [filter]. destruct (DuplicateCodeDetector.has_similarities report).
    + now rewrite <- app_assoc.
    + reflexivity.
Qed.

Lemma process_items_returns (items : pydict) :
  readable_raw_data float_of_str self items ->
  forall acc, exists reports, process_items items acc = Ok reports.
Proof.
  unfold readable_raw_data.
  induction 1 as [|[file_path similarities] items (d & Hd & Hitems) _ IH];
    intros acc; cbn [DuplicateCodeDetector.process_items].
  - eexists. reflexivity.
  - cbn [snd] in Hd. subst similarities.
    destruct (fill_report_returns file_path d Hitems) as (report & Hfill).
    rewrite Hfill. apply IH.
Qed.

Lemma process_result_ok (return_code : ReturnCode.t) (raw_data : pydict)
    (r : DetectionResult.t) :
  process_result return_code raw_data = Ok r ->
  DetectionResult.return_code r = return_code /\
  DetectionResult.raw_data r = raw_data /\
  process_items raw_data [] = Ok (DetectionResult.reports r).
Proof.
  unfold DuplicateCodeDetector._process_result.
  destruct (DuplicateCodeDetector.process_items _ _ _ _) as [reports|e];
    [|discriminate].
  intros [= <-]. auto.
Qed.

(** On a raw mapping of the documented shape [_process_result] returns. *)
Lemma process_result_returns (return_code : ReturnCode.t) (raw_data : pydict) :
  readable_raw_data float_of_str self raw_data ->
  exists r, process_result return_code raw_data = Ok r.
Proof.
  intros H. destruct (process_items_returns raw_data H []) as (reports & Hr).
  unfold DuplicateCodeDetector._process_result.
  rewrite Hr. eexists. reflexivity.
Qed.

End Aggregation.

(* --------------------------------------------------------------------- *)
(** *** What the aggregator guarantees *)



Lemma has_similarities_nonempty (report : SimilarityReport.t) :
  DuplicateCodeDetector.has_similarities report = true
  <-> SimilarityReport.similarities report <> [].
Proof.
  unfold DuplicateCodeDetector.has_similarities.
  destruct (SimilarityReport.similarities report); split; congruence.
Qed.

(* --------------------------------------------------------------------- *)
(** *** The aggregator and the object it is given *)

Lemma keeps_entry_on_entry {A} (m : M pyval A) :
  read_only m -> keeps_entry (DuplicateCodeDetector.on_entry m).
Proof.
  intros Hm [similarities report]. specialize (Hm similarities).
  unfold exec, DuplicateCodeDetector.on_entry, zoom in *. cbn [fst snd] in *.
  destruct (m similarities) as [r similarities']. exact Hm.
Qed.

Lemma keeps_entry_on_report {A} (m : M SimilarityReport.t A) :
  keeps_entry (DuplicateCodeDetector.on_report m).
Proof.
  intros [similarities report].
  unfold exec, DuplicateCodeDetector.on_report, zoom. cbn [fst snd].
  now destruct (m report).
Qed.

Lemma keeps_entry_ret {A} (a : A) : keeps_entry (ret a).
Proof. now intros s. Qed.

Lemma keeps_entry_bind {A B} (m : M (pyval * SimilarityReport.t) A)
    (k : A -> M (pyval * SimilarityReport.t) B) :
  keeps_entry m -> (forall a, keeps_entry (k a)) -> keeps_entry (bind m k).
Proof.
  intros Hm Hk s. specialize (Hm s). unfold exec, bind in *.
  destruct (m s) as [[a|e] s']; cbn [snd] in *; [|exact Hm].
  rewrite <- Hm. apply Hk.
Qed.

Lemma shows_loc_read_only (self : DuplicateCodeDetector.t) :
  read_only (DuplicateCodeDetector.shows_loc self).
Proof. unfold DuplicateCodeDetector.shows_loc. auto with frame. Qed.

Lemma getitem_read_only (key : string) : read_only (DuplicateCodeDetector.getitem key).
Proof. unfold DuplicateCodeDetector.getitem. auto with frame. Qed.

Lemma items_read_only : read_only DuplicateCodeDetector.items.
Proof. unfold DuplicateCodeDetector.items. auto with frame. Qed.

Section AggregatorOnObject.

Variable float_of_str : string -> option float.
Variable self : DuplicateCodeDetector.t.

Lemma fill_report_on_keeps_entry (file_path : string) :
  keeps_entry (DuplicateCodeDetector.fill_report_on float_of_str self file_path).
Proof.
  unfold DuplicateCodeDetector.fill_report_on.
  apply keeps_entry_bind;
    [apply keeps_entry_on_entry, shows_loc_read_only|intros extract].
  apply keeps_entry_bind; [|intros similarities; apply keeps_entry_on_report].
  destruct extract; [|apply keeps_entry_on_entry, items_read_only].
  apply keeps_entry_bind;
    [apply keeps_entry_on_entry, getitem_read_only|intros loc].
  apply keeps_entry_bind; [apply keeps_entry_on_report|intros _].
  apply keeps_entry_bind;
    [apply keeps_entry_on_entry, items_read_only|intros all].
  apply keeps_entry_ret.
Qed.

Lemma process_entry_on_read_only (file_path : string)
    (reports : list SimilarityReport.t) :
  read_only (DuplicateCodeDetector.process_entry_on float_of_str self file_path reports).
Proof.
  intros similarities.
  pose proof (fill_report_on_keeps_entry file_path
                (similarities, SimilarityReport.new file_path)) as H.
  unfold exec, DuplicateCodeDetector.process_entry_on in *.
  destruct (DuplicateCodeDetector.fill_report_on _ _ _ _)
    as [[u|e] [similarities' report]]; exact H.
Qed.

(** The call leaves [raw_data] and every mapping in it as they were,
    also when it raises. *)
Lemma process_result_on_read_only (return_code : ReturnCode.t) :
  read_only (DuplicateCodeDetector._process_result_on float_of_str self return_code).
Proof.
  unfold DuplicateCodeDetector._process_result_on.
  apply read_only_bind; [|auto with frame].
  apply fold_each_read_only. intros reports.
  apply read_only_bind; [apply read_only_gets|intros file_path].
  apply read_only_zoom; [now intros [k v]|apply process_entry_on_read_only].
Qed.

(** On the mapping it is given the method computes what the aggregator
    computes from the value of the mapping. *)
Lemma fill_report_on_value (file_path : string) (similarities : pyval)
    (report : SimilarityReport.t) :
  fst (DuplicateCodeDetector.fill_report_on float_of_str self file_path
         (similarities, report))
  = fst (DuplicateCodeDetector.fill_report float_of_str self file_path
           similarities report)
  /\ snd (snd (DuplicateCodeDetector.fill_report_on float_of_str self file_path
                 (similarities, report)))
     = snd (DuplicateCodeDetector.fill_report float_of_str self file_path
              similarities report).
Proof.
  unfold DuplicateCodeDetector.fill_report_on, DuplicateCodeDetector.fill_report,
    DuplicateCodeDetector.on_entry, DuplicateCodeDetector.on_report,
    DuplicateCodeDetector.shows_loc, DuplicateCodeDetector.getitem,
    DuplicateCodeDetector.items, SimilarityReport.set_loc_count.
  destruct similarities as [|b|z|f|str|l|d];
    cbv [bind gets lift ret zoom modify fst snd py_items];
    rewrite ?andb_false_r; try (split; reflexivity).
  destruct (DuplicateCodeDetector.show_loc self && dict_contains "#LoC" d).
  - destruct (dict_getitem "#LoC" d) as [loc|e]; [|split; reflexivity].
    now destruct (DuplicateCodeDetector.add_items _ _ _ _).
  - now destruct (DuplicateCodeDetector.add_items _ _ _ _).
Qed.

Lemma process_items_on_value (raw_data : pydict) :
  forall reports,
  fst (fold_each
         (fun reports =>
            bind (gets fst)
              (fun file_path =>
                 zoom snd (fun similarities entry => (fst entry, similarities))
                   (DuplicateCodeDetector.process_entry_on float_of_str self
                      file_path reports)))
         reports raw_data)
  = DuplicateCodeDetector.process_items float_of_str self raw_data reports.
Proof.
  induction raw_data as [|[file_path similarities] raw_data IH]; intros reports;
    cbn [fold_each DuplicateCodeDetector.process_items]; [reflexivity|].
  unfold bind at 1, gets at 1, zoom at 1,
    DuplicateCodeDetector.process_entry_on at 1. cbn [fst snd].
  destruct (fill_report_on_value file_path similarities
              (SimilarityReport.new file_path)) as [Hvalue Hreport].
  destruct (DuplicateCodeDetector.fill_report_on _ _ _ _)
    as [r [similarities' report]].
  destruct (DuplicateCodeDetector.fill_report _ _ _ _ _) as [r0 report0].
  cbn [fst snd] in Hvalue, Hreport. subst r0 report0.
  destruct r as [u|e]; [|reflexivity].
  specialize (IH (if DuplicateCodeDetector.has_similarities report
                  then reports ++ [report] else reports)).
  destruct (fold_each _ _ raw_data) as [res raw_data']. exact IH.
Qed.

Lemma process_result_on_run (return_code : ReturnCode.t) (raw_data : pydict) :
  DuplicateCodeDetector._process_result_on float_of_str self return_code raw_data
  = (DuplicateCodeDetector._process_result float_of_str self return_code raw_data,
     raw_data).
Proof.
  pose proof (process_result_on_read_only return_code raw_data) as Hstate.
  unfold exec in Hstate.
  destruct (DuplicateCodeDetector._process_result_on _ _ _ _) as [r raw_data'] eqn:H.
  cbn [snd] in Hstate. subst raw_data'. f_equal.
  unfold DuplicateCodeDetector._process_result_on, bind in H.
  pose proof (process_items_on_value raw_data []) as Hitems.
  pose proof (fold_each_read_only
                (fun reports =>
                   bind (gets fst)
                     (fun file_path =>
                        zoom snd
                          (fun similarities entry => (fst entry, similarities))
                          (DuplicateCodeDetector.process_entry_on float_of_str self
                             file_path reports)))) as Hfold.
  specialize (Hfold
                ltac:(intros reports; apply read_only_bind;
                      [apply read_only_gets|intros file_path];
                      apply read_only_zoom;
                      [now intros [k v]|apply process_entry_on_read_only])
                [] raw_data).
  unfold exec in Hfold.
  destruct (fold_each _ [] raw_data) as [res raw_data'].
  cbn [fst snd] in Hitems, Hfold. subst raw_data'.
  unfold DuplicateCodeDetector._process_result. rewrite <- Hitems.
  destruct res as [reports|e]; cbn in H; now injection H as <-.
Qed.

End AggregatorOnObject.

Section AggregatorProperties.

Variable float_of_str : string -> option float.
Variable self : DuplicateCodeDetector.t.

Local Abbreviation process_result :=
  (DuplicateCodeDetector._process_result float_of_str self).

(** C3 (as amended). In the result of [_process_result] the reports are,
    in order, the reports built for the entries of [raw_data] whose list
    of similarities is not empty: a report appears if and only if its
    list is not empty, and no empty report is emitted.  When the detector
    shows line counts, an entry holding nothing but the key ["#LoC"]
    yields no report. *)
Theorem reports_are_the_nonempty_ones
    (return_code : ReturnCode.t) (raw_data : pydict) (r : DetectionResult.t) :
  process_result return_code raw_data = Ok r ->
  (exists builts,
     Forall2 (built_report float_of_str self) raw_data builts /\
     DetectionResult.reports r
     = filter DuplicateCodeDetector.has_similarities builts /\
     forall report,
       In report (DetectionResult.reports r)
       <-> In report builts /\ SimilarityReport.similarities report <> [])
  /\ Forall (fun report => SimilarityReport.similarities report <> [])
       (DetectionResult.reports r)
  /\ (DuplicateCodeDetector.show_loc self = true ->
      dict_wf raw_data ->
      forall file_path loc,
        In (file_path, PDict [("#LoC", loc)]) raw_data ->
        forall report,
          In report (DetectionResult.reports r) ->
          SimilarityReport.file_path report <> file_path).
Proof.
  intros H. apply process_result_ok in H as (_ & _ & H).
  apply process_items_ok in H as (builts & Hbuilt & Hreports).
  cbn [app] in Hreports.
  assert (Hiff : forall report,
             In report (DetectionResult.reports r)
             <-> In report builts /\ SimilarityReport.similarities report <> []).
  { intros report. rewrite Hreports, filter_In, has_similarities_nonempty.
    reflexivity. }
  split; [|split].
  - exists builts. auto.
  - apply Forall_forall. intros report Hin. now apply Hiff in Hin.
  - intros Hshow Hwf file_path loc Hentry report Hin Hfp.
    apply Hiff in Hin as [Hin Hne].
    destruct (Forall2_In_r _ _ _ _ Hbuilt Hin)
      as ([fp v] & Hraw & d & Hd & Hpath & _ & Hsims).
    cbn [fst snd] in *. subst v. rewrite Hpath in Hfp. subst fp.
    pose proof (dict_wf_unique _ _ _ _ Hwf Hraw Hentry) as [= ->].
    unfold similarity_items in Hsims. rewrite Hshow in Hsims. cbn in Hsims.
    inversion Hsims. congruence.
Qed.


(** C5. A call of [_process_result] on the object [raw_data] leaves the
    object as it was, so the result, which holds the object, has a
    [raw_data] equal to the mapping given; the document of the result
    holds that mapping under ["raw_data"]; and running
    [_process_result] again, with the same detector, on the [raw_data]
    of the result leaves it unaltered once more and returns a result
    with the same reports. *)
Theorem process_result_round_trip
    (return_code : ReturnCode.t) (raw_data raw_data' : pydict)
    (r : DetectionResult.t) :
  DuplicateCodeDetector._process_result_on float_of_str self return_code raw_data
  = (Ok r, raw_data') ->
  raw_data' = raw_data /\
  DetectionResult.raw_data r = raw_data /\
  (exists document,
     eval DetectionResult.to_dict r = Ok (PDict document) /\
     dict_getitem "raw_data" document = Ok (PDict raw_data)) /\
  forall return_code',
    exists r',
      DuplicateCodeDetector._process_result_on float_of_str self return_code'
        (DetectionResult.raw_data r)
      = (Ok r', DetectionResult.raw_data r) /\
      DetectionResult.reports r' = DetectionResult.reports r.
Proof.
  intros H.
  assert (Hkept : raw_data' = raw_data).
  { pose proof (process_result_on_read_only float_of_str self return_code raw_data)
      as Hframe.
    unfold exec in Hframe. now rewrite H in Hframe. }
  subst raw_data'. rewrite process_result_on_run in H. injection H as H.
  apply process_result_ok in H as (_ & Hraw & H).
  split; [reflexivity|]. split; [exact Hraw|]. split.
  - destruct (DetectionResult_to_dict_run r) as (reps & _ & Hdoc).
    eexists. split; [exact Hdoc|]. now rewrite Hraw.
  - intros return_code'. rewrite Hraw, process_result_on_run.
    unfold DuplicateCodeDetector._process_result. rewrite H.
    eexists. split; reflexivity.
Qed.

(** C10. In the result of [_process_result], every similarity of a
    report has the report's file path as source file and the report's
    line count as source line count. *)
Theorem similarities_carry_their_report
    (return_code : ReturnCode.t) (raw_data : pydict) (r : DetectionResult.t) :
  process_result return_code raw_data = Ok r ->
  forall report,
    In report (DetectionResult.reports r) ->
    forall s,
      In s (SimilarityReport.similarities report) ->
      FileSimilarity.source_file s = SimilarityReport.file_path report /\
      FileSimilarity.source_loc s = SimilarityReport.loc_count report.
Proof.
  intros H report Hin s Hs.
  apply process_result_ok in H as (_ & _ & H).
  apply process_items_ok in H as (builts & Hbuilt & Hreports).
  rewrite Hreports in Hin. cbn [app] in Hin. apply filter_In in Hin as [Hin _].
  destruct (Forall2_In_r _ _ _ _ Hbuilt Hin)
    as (entry & _ & d & _ & Hpath & Hloc & Hsims).
  destruct (Forall2_In_r _ _ _ _ Hsims Hs) as (item & _ & Hsrc & Hsloc & _).
  rewrite Hpath, Hloc. auto.
Qed.

End AggregatorProperties.

(* --------------------------------------------------------------------- *)
(** *** The aggregator on concrete mappings *)

Lemma raw_loc_processed :
  DuplicateCodeDetector._process_result Examples.no_literal Examples.detector
    ReturnCode.SUCCESS Examples.raw_loc
  = Ok Examples.result_loc.
Proof. reflexivity. Defined.

Lemma raw_loc_wf : dict_wf Examples.raw_loc.
Proof.
  unfold dict_wf. cbn.
  repeat constructor; cbn; intuition discriminate.
Defined.

Lemma reports_are_the_nonempty_ones_witness :
  DuplicateCodeDetector._process_result Examples.no_literal Examples.detector
    ReturnCode.SUCCESS Examples.raw_loc
  = Ok Examples.result_loc
  /\ Forall (fun report => SimilarityReport.similarities report <> [])
       (DetectionResult.reports Examples.result_loc)
  /\ (forall report,
        In report (DetectionResult.reports Examples.result_loc) ->
        SimilarityReport.file_path report <> "c.py").
Proof.
  pose proof (reports_are_the_nonempty_ones Examples.no_literal Examples.detector
                ReturnCode.SUCCESS Examples.raw_loc Examples.result_loc
                raw_loc_processed) as (_ & Hnonempty & Honly_loc).
  split; [exact raw_loc_processed|]. split; [exact Hnonempty|].
  apply (Honly_loc eq_refl raw_loc_wf "c.py" (PInt 3)).
  cbn. auto.
Defined.

(** Without line counts the key ["#LoC"] is an item like any other: the
    entry that holds nothing else yields a report, with ["#LoC"] as the
    target file of its one similarity. *)
Lemma loc_only_entry_reported_without_show_loc :
  DuplicateCodeDetector.show_loc Examples.detector_no_loc = false
  /\ In ("a.py", PDict [("#LoC", PInt 10)]) Examples.raw_only_loc
  /\ exists r report,
       DuplicateCodeDetector._process_result Examples.no_literal
         Examples.detector_no_loc ReturnCode.SUCCESS Examples.raw_only_loc
       = Ok r
       /\ In report (DetectionResult.reports r)
       /\ SimilarityReport.file_path report = "a.py"
       /\ SimilarityReport.similarities report
          = [ FileSimilarity.mk "a.py" "#LoC" (PFloat Examples.f10) PNone PNone ].
Proof.
  split; [reflexivity|]. split; [now left|].
  eexists. eexists. split; [reflexivity|]. split; [now left|].
  split; reflexivity.
Qed.


Lemma process_result_round_trip_witness :
  DuplicateCodeDetector._process_result_on Examples.no_literal Examples.detector
    ReturnCode.SUCCESS Examples.raw_loc
  = (Ok Examples.result_loc, Examples.raw_loc)
  /\ DetectionResult.raw_data Examples.result_loc = Examples.raw_loc
  /\ (exists document,
        eval DetectionResult.to_dict Examples.result_loc = Ok (PDict document) /\
        dict_getitem "raw_data" document = Ok (PDict Examples.raw_loc))
  /\ forall return_code',
       exists r',
         DuplicateCodeDetector._process_result_on Examples.no_literal
           Examples.detector return_code'
           (DetectionResult.raw_data Examples.result_loc)
         = (Ok r', DetectionResult.raw_data Examples.result_loc) /\
         DetectionResult.reports r' = DetectionResult.reports Examples.result_loc.
Proof.
  split; [reflexivity|].
  exact (proj2 (process_result_round_trip Examples.no_literal Examples.detector
                  ReturnCode.SUCCESS Examples.raw_loc Examples.raw_loc
                  Examples.result_loc eq_refl)).
Defined.

Lemma similarities_carry_their_report_witness :
  DuplicateCodeDetector._process_result Examples.no_literal Examples.detector
    ReturnCode.SUCCESS Examples.raw_loc
  = Ok Examples.result_loc
  /\ forall report,
       In report (DetectionResult.reports Examples.result_loc) ->
       forall s,
         In s (SimilarityReport.similarities report) ->
         FileSimilarity.source_file s = SimilarityReport.file_path report /\
         FileSimilarity.source_loc s = SimilarityReport.loc_count report.
Proof.
  split; [exact raw_loc_processed|].
  exact (similarities_carry_their_report Examples.no_literal Examples.detector
           ReturnCode.SUCCESS Examples.raw_loc Examples.result_loc
           raw_loc_processed).
Defined.

(** Where the aggregator and the queries raise instead of returning. *)

Example entry_that_is_no_mapping :
  DuplicateCodeDetector._process_result Examples.no_literal Examples.detector
    ReturnCode.SUCCESS [("a.py", PInt 3)]
  = Raise AttributeError.
Proof. reflexivity. Qed.

Example item_that_float_refuses :
  DuplicateCodeDetector._process_result Examples.no_literal Examples.detector
    ReturnCode.SUCCESS [("a.py", PDict [("b.py", PNone)])]
  = Raise TypeError.
Proof. reflexivity. Qed.

Example percentage_that_is_no_number :
  eval (DetectionResult.get_critical_duplications Examples.f50)
    (DetectionResult.mk ReturnCode.SUCCESS
       [SimilarityReport.mk "a.py" [Examples.sim "a.py" "b.py" (PStr "high")] PNone]
       [])
  = Raise TypeError.
Proof. reflexivity. Qed.

Example examples_are_binary64 :
  forallb (valid_binary prec emax)
    [Examples.f10; Examples.f50; Examples.f80; Examples.f99_5] = true.
Proof. reflexivity. Qed.

Example int_compares_exactly_with_float :
  py_ge (PInt 50) Examples.f50 = Ok true /\
  py_ge (PInt 49) Examples.f50 = Ok false /\
  py_ge (PBool true) Examples.f50 = Ok false /\
  py_ge (PFloat S754_nan) Examples.f50 = Ok false.
Proof. repeat split. Qed.

(* ===================================================================== *)
(** ** Further properties of the report model *)
(* ===================================================================== *)

(** The comprehension of [get_high_similarities] either returns the
    filter, all percentages being numbers, or raises a [TypeError]. *)
Lemma filter_r_reaches (threshold : float) (l : list FileSimilarity.t) :
  (Forall numeric_percentage l /\
   filter_r (reaches threshold) l = Ok (filter (at_least threshold) l))
  \/ (~ Forall numeric_percentage l /\
      filter_r (reaches threshold) l = Raise TypeError).
Proof.
  induction l as [|s l IH]; cbn [filter_r filter].
  - left. split; [constructor|reflexivity].
  - destruct (as_number (FileSimilarity.similarity_percentage s)) as [n|] eqn:Hn.
    + assert (Hnum : numeric_percentage s)
        by (unfold numeric_percentage; rewrite Hn; discriminate).
      rewrite (reaches_numeric threshold s Hnum).
      destruct IH as [[Hall ->]|[Hnot ->]].
      * left. split; [now constructor|reflexivity].
      * right. split; [|reflexivity]. intros H. inversion H. contradiction.
    + assert (Hr : reaches threshold s = Raise TypeError)
        by (unfold reaches, py_ge; now rewrite Hn).
      rewrite Hr. right. split; [|reflexivity].
      intros H. inversion H as [|? ? Hs _].
      unfold numeric_percentage in Hs. now rewrite Hn in Hs.
Qed.

(** X1. Adding a similarity to a report and then asking for the high
    similarities gives what the report gave before, followed by the
    added similarity when its percentage reaches the threshold. *)
Theorem add_similarity_then_get_high
    (report : SimilarityReport.t) (s : FileSimilarity.t) (threshold : float) :
  eval (bind (SimilarityReport.add_similarity s)
             (fun _ => SimilarityReport.get_high_similarities threshold)) report
  = match eval (SimilarityReport.get_high_similarities threshold) report with
    | Raise e => Raise e
    | Ok high =>
        match py_ge (FileSimilarity.similarity_percentage s) threshold with
        | Raise e => Raise e
        | Ok b => Ok (if b then high ++ [s] else high)
        end
    end.
Proof.
  unfold eval, bind, SimilarityReport.add_similarity, modify.
  rewrite !get_high_similarities_run. cbn [fst].
  destruct report as [fp l lc]. cbn [SimilarityReport.similarities
    SimilarityReport.set_similarities SimilarityReport.file_path
    SimilarityReport.loc_count].
  rewrite filter_r_app. destruct (filter_r (reaches threshold) l) as [high|e];
    [|reflexivity].
  cbn [filter_r]. unfold reaches at 1.
  destruct (py_ge (FileSimilarity.similarity_percentage s) threshold) as [b|e];
    [|reflexivity].
  destruct b; [reflexivity|now rewrite app_nil_r].
Qed.

(** X2. [get_critical_duplications] returns exactly when every
    percentage of the result is a number, whatever the threshold;
    otherwise it raises a [TypeError]. *)
Theorem get_critical_duplications_returns_iff_numeric
    (r : DetectionResult.t) (threshold : float) :
  (numeric_percentages r
   <-> exists l, eval (DetectionResult.get_critical_duplications threshold) r = Ok l)
  /\ (~ numeric_percentages r ->
      eval (DetectionResult.get_critical_duplications threshold) r = Raise TypeError).
Proof.
  rewrite get_critical_duplications_eval. unfold numeric_percentages.
  destruct (filter_r_reaches threshold (all_similarities r)) as [[Hall ->]|[Hnot ->]].
  - split; [|contradiction]. split; [eauto|auto].
  - split; [|reflexivity]. split; [contradiction|]. intros [l Hl]. discriminate.
Qed.

Lemma get_critical_duplications_returns_iff_numeric_witness :
  ~ numeric_percentages
      (DetectionResult.mk ReturnCode.SUCCESS
         [SimilarityReport.mk "a.py" [Examples.sim "a.py" "b.py" (PStr "high")] PNone]
         [])
  /\ eval (DetectionResult.get_critical_duplications Examples.f50)
       (DetectionResult.mk ReturnCode.SUCCESS
          [SimilarityReport.mk "a.py" [Examples.sim "a.py" "b.py" (PStr "high")] PNone]
          [])
     = Raise TypeError.
Proof.
  assert (H : ~ numeric_percentages
                (DetectionResult.mk ReturnCode.SUCCESS
                   [SimilarityReport.mk "a.py"
                      [Examples.sim "a.py" "b.py" (PStr "high")] PNone]
                   [])).
  { intros H. inversion H as [|? ? Hs _]. now apply Hs. }
  split; [exact H|].
  exact (proj2 (get_critical_duplications_returns_iff_numeric _ Examples.f50) H).
Defined.

Lemma at_least_lower (t1 t2 : float) (s : FileSimilarity.t) :
  float_le t1 t2 = true -> at_least t2 s = true -> at_least t1 s = true.
Proof.
  unfold at_least, float_le, num_ge. intros Hle.
  destruct (as_number (FileSimilarity.similarity_percentage s)) as [n|];
    [|discriminate].
  intros H. exact (num_le_trans _ _ _ Hle H).
Qed.

Lemma filter_filter_stronger {A} (p q : A -> bool) (l : list A) :
  (forall x, q x = true -> p x = true) ->
  filter q (filter p l) = filter q l.
Proof.
  intros Hqp. induction l as [|x l IH]; cbn [filter]; [reflexivity|].
  destruct (p x) eqn:Hp; cbn [filter].
  - now rewrite IH.
  - destruct (q x) eqn:Hq; [|exact IH].
    apply Hqp in Hq. congruence.
Qed.

(** X3. Raising the threshold only removes entries: when [t1 <= t2],
    [get_critical_duplications(t2)] is [get_critical_duplications(t1)]
    without the entries below [t2], in the same order, so it is not
    longer. *)
Theorem get_critical_duplications_shrinks
    (r : DetectionResult.t) (t1 t2 : float) (l2 : list FileSimilarity.t) :
  float_le t1 t2 = true ->
  eval (DetectionResult.get_critical_duplications t2) r = Ok l2 ->
  exists l1,
    eval (DetectionResult.get_critical_duplications t1) r = Ok l1 /\
    l2 = filter (at_least t2) l1 /\
    (length l2 <= length l1)%nat.
Proof.
  rewrite !get_critical_duplications_eval. intros Hle H2.
  destruct (filter_r_reaches t2 (all_similarities r)) as [[Hall H]|[_ H]];
    rewrite H in H2; [|discriminate].
  injection H2 as <-.
  destruct (filter_r_reaches t1 (all_similarities r)) as [[_ ->]|[Hnot _]];
    [|contradiction].
  eexists. split; [reflexivity|].
  assert (Heq : filter (at_least t2) (all_similarities r)
                = filter (at_least t2) (filter (at_least t1) (all_similarities r))).
  { symmetry. apply filter_filter_stronger. intros s. now apply at_least_lower. }
  split; [exact Heq|]. rewrite Heq. apply filter_length_le.
Qed.

Lemma get_critical_duplications_shrinks_witness :
  float_le Examples.f50 Examples.f80 = true /\
  exists l1,
    eval (DetectionResult.get_critical_duplications Examples.f50) Examples.result2
    = Ok l1 /\
    [ Examples.sim "a.py" "b.py" (PFloat Examples.f99_5);
      Examples.sim "b.py" "a.py" (PFloat Examples.f99_5) ]
    = filter (at_least Examples.f80) l1 /\
    (2 <= length l1)%nat.
Proof.
  split; [reflexivity|].
  exact (get_critical_duplications_shrinks Examples.result2 Examples.f50
           Examples.f80 _ eq_refl eq_refl).
Defined.

Lemma at_least_ordered (threshold : float) (s : FileSimilarity.t) :
  at_least threshold s = true ->
  ordered_percentage s /\ float_value threshold <> None.
Proof.
  unfold at_least, ordered_percentage, num_ge, num_le. cbn [num_value].
  destruct (as_number (FileSimilarity.similarity_percentage s)) as [n|];
    [|discriminate].
  destruct (float_value threshold) as [y|]; [|discriminate].
  destruct (num_value n) as [x|] eqn:Hx; [|discriminate].
  intros _. split; [eauto|discriminate].
Qed.

(** X4. A NaN is never critical: under a NaN threshold
    [get_critical_duplications] returns the empty list, and under any
    threshold it returns no similarity whose percentage is a NaN. *)
Theorem nan_is_never_critical
    (r : DetectionResult.t) (threshold : float) (l : list FileSimilarity.t) :
  eval (DetectionResult.get_critical_duplications threshold) r = Ok l ->
  Forall ordered_percentage l /\ (float_value threshold = None -> l = []).
Proof.
  rewrite get_critical_duplications_eval. intros H.
  destruct (filter_r_reaches threshold (all_similarities r)) as [[_ H']|[_ H']];
    rewrite H' in H; [|discriminate].
  injection H as <-. split.
  - apply Forall_forall. intros s Hs. apply filter_In in Hs as [_ Hs].
    now apply at_least_ordered in Hs.
  - intros Hnan. destruct (filter (at_least threshold) (all_similarities r))
      as [|s l'] eqn:Hf; [reflexivity|].
    assert (Hs : In s (filter (at_least threshold) (all_similarities r)))
      by (rewrite Hf; now left).
    apply filter_In in Hs as [_ Hs]. apply at_least_ordered in Hs as [_ Hs].
    contradiction.
Qed.

Lemma nan_is_never_critical_witness :
  eval (DetectionResult.get_critical_duplications S754_nan) Examples.result2 = Ok []
  /\ Forall ordered_percentage [] /\ (float_value S754_nan = None -> @nil FileSimilarity.t = []).
Proof.
  split; [reflexivity|].
  exact (nan_is_never_critical Examples.result2 S754_nan [] eq_refl).
Defined.

(* ===================================================================== *)
(** ** Further properties of the aggregator *)
(* ===================================================================== *)

Lemma Forall2_Forall_l {A B} (R : A -> B -> Prop) (P : A -> Prop)
    (l1 : list A) (l2 : list B) :
  (forall a b, R a b -> P a) -> Forall2 R l1 l2 -> Forall P l1.
Proof. intros HRP. induction 1; constructor; eauto. Qed.

Lemma Forall2_Forall_r {A B} (R : A -> B -> Prop) (P : B -> Prop)
    (l1 : list A) (l2 : list B) :
  (forall a b, In a l1 -> R a b -> P b) -> Forall2 R l1 l2 -> Forall P l2.
Proof.
  intros HRP H. induction H as [|a b l1 l2 Hab _ IH]; constructor.
  - apply (HRP a b); [now left|exact Hab].
  - apply IH. intros a' b' Hin. apply HRP. now right.
Qed.

(** Keeping some entries of a dictionary keeps its keys distinct. *)
Lemma dict_wf_filter (keep : string * pyval -> bool) (d : pydict) :
  dict_wf d -> dict_wf (filter keep d).
Proof.
  unfold dict_wf, dict_keys.
  induction d as [|entry d IH]; cbn [filter map]; intros Hwf; [exact Hwf|].
  apply NoDup_cons_iff in Hwf as [Hfresh Hwf].
  destruct (keep entry); cbn [map]; [|now apply IH].
  apply NoDup_cons; [|now apply IH].
  intros Hin. apply Hfresh.
  apply in_map_iff in Hin as (other & Hkey & Hin).
  apply filter_In in Hin as [Hin _].
  rewrite <- Hkey. now apply in_map.
Qed.

Lemma dict_without_key (k : string) (d : pydict) (item : string * pyval) :
  In item (dict_without k d) -> fst item <> k /\ In item d.
Proof.
  unfold dict_without. rewrite filter_In. intros [Hin Hneq]. split; [|exact Hin].
  intros Heq. rewrite Heq, String.eqb_refl in Hneq. discriminate.
Qed.

Lemma dict_contains_false (k : string) (d : pydict) (item : string * pyval) :
  dict_contains k d = false -> In item d -> fst item <> k.
Proof.
  unfold dict_contains. intros Hc Hin Heq.
  assert (H : existsb (fun kv => String.eqb (fst kv) k) d = true).
  { apply existsb_exists. exists item. split; [exact Hin|].
    rewrite Heq. apply String.eqb_refl. }
  congruence.
Qed.

Lemma similarity_of_item_readable (float_of_str : string -> option float)
    (item : string * pyval) (s : FileSimilarity.t) :
  similarity_of_item float_of_str item s -> readable_item float_of_str item.
Proof.
  unfold similarity_of_item, readable_item. intros [_ H].
  destruct (snd item); try exact I; destruct H as (pct & Hpct & _); eauto.
Qed.

Section AggregatorFurther.

Variable float_of_str : string -> option float.
Variable self : DuplicateCodeDetector.t.

Local Abbreviation fill_report := (DuplicateCodeDetector.fill_report float_of_str self).
Local Abbreviation process_items :=
  (DuplicateCodeDetector.process_items float_of_str self).
Local Abbreviation process_result :=
  (DuplicateCodeDetector._process_result float_of_str self).

Lemma similarity_items_in (d : pydict) (item : string * pyval) :
  In item (similarity_items self d) -> In item d.
Proof.
  unfold similarity_items.
  destruct (DuplicateCodeDetector.show_loc self && dict_contains "#LoC" d);
    [|auto]. intros H. now apply dict_without_key in H.
Qed.

Lemma built_report_has_items (entry : string * pyval) (report : SimilarityReport.t) :
  built_report float_of_str self entry report ->
  SimilarityReport.file_path report = fst entry /\
  DuplicateCodeDetector.has_similarities report = has_items self entry.
Proof.
  intros (d & Hd & Hpath & _ & Hsims). split; [exact Hpath|].
  unfold DuplicateCodeDetector.has_similarities, has_items. rewrite Hd.
  now destruct Hsims.
Qed.

Lemma reported_paths (items : pydict) (builts : list SimilarityReport.t) :
  Forall2 (built_report float_of_str self) items builts ->
  map SimilarityReport.file_path
    (filter DuplicateCodeDetector.has_similarities builts)
  = map fst (filter (has_items self) items).
Proof.
  induction 1 as [|entry report items builts Hb _ IH]; cbn [filter map];
    [reflexivity|].
  apply built_report_has_items in Hb as [Hpath ->].
  destruct (has_items self entry); cbn [map]; now rewrite ?Hpath, IH.
Qed.

Lemma processed_reports (return_code : ReturnCode.t) (raw_data : pydict)
    (r : DetectionResult.t) :
  process_result return_code raw_data = Ok r ->
  exists builts,
    Forall2 (built_report float_of_str self) raw_data builts /\
    DetectionResult.reports r = filter DuplicateCodeDetector.has_similarities builts.
Proof.
  intros H. apply process_result_ok in H as (_ & _ & H).
  apply process_items_ok in H as (builts & Hbuilt & Hreports).
  exists builts. auto.
Qed.

(** X5. In a result of [_process_result], [has_duplications()] is true
    exactly when the result holds at least one similarity. *)
Theorem has_duplications_iff_some_similarity
    (return_code : ReturnCode.t) (raw_data : pydict) (r : DetectionResult.t) :
  process_result return_code raw_data = Ok r ->
  (eval DetectionResult.has_duplications r = Ok true <-> all_similarities r <> []).
Proof.
  intros H. apply processed_reports in H as (builts & _ & Hreports).
  unfold eval, DetectionResult.has_duplications, bind, gets, ret, all_similarities.
  cbn [fst]. rewrite Hreports.
  destruct (filter DuplicateCodeDetector.has_similarities builts)
    as [|report reports] eqn:Hf; cbn.
  - split; [discriminate|congruence].
  - assert (Hin : In report (filter DuplicateCodeDetector.has_similarities builts))
      by (rewrite Hf; now left).
    apply filter_In in Hin as [_ Hin]. apply has_similarities_nonempty in Hin.
    split; [|reflexivity]. intros _ Hnil. apply app_eq_nil in Hnil as [Hnil _].
    contradiction.
Qed.

(** X6. When no file of [raw_data] has a similarity item (the mapping
    is empty, or every file maps to an empty mapping or, with line
    counts shown, to its line count alone), [_process_result] returns
    a result without any report. *)
Theorem no_items_no_reports (return_code : ReturnCode.t) (raw_data : pydict) :
  Forall (fun entry =>
            exists d, snd entry = PDict d /\ similarity_items self d = [])
    raw_data ->
  process_result return_code raw_data
  = Ok (DetectionResult.mk return_code [] raw_data).
Proof.
  intros H. unfold DuplicateCodeDetector._process_result.
  enough (Hitems : forall acc, process_items raw_data acc = Ok acc)
    by now rewrite Hitems.
  induction H as [|[file_path similarities] items (d & Hd & Hnone) _ IH];
    intros acc; cbn [DuplicateCodeDetector.process_items]; [reflexivity|].
  cbn [snd] in Hd. subst similarities.
  rewrite fill_report_run, Hnone. cbn. apply IH.
Qed.

(** X7. [_process_result] returns exactly when every file of [raw_data]
    maps to a mapping whose similarity items are nested mappings or
    values that [float] converts; otherwise it raises. *)
Theorem process_result_returns_iff_readable
    (return_code : ReturnCode.t) (raw_data : pydict) :
  (exists r, process_result return_code raw_data = Ok r)
  <-> readable_raw_data float_of_str self raw_data.
Proof.
  split; [|apply process_result_returns].
  intros [r H]. apply processed_reports in H as (builts & Hbuilt & _).
  unfold readable_raw_data.
  eapply Forall2_Forall_l; [|exact Hbuilt].
  intros entry report (d & Hd & _ & _ & Hsims). exists d. split; [exact Hd|].
  eapply Forall2_Forall_l; [|exact Hsims].
  intros item s (_ & _ & Hitem). now apply similarity_of_item_readable in Hitem.
Qed.

(** X8. The files reported by [_process_result] are, in the order of
    [raw_data], the files whose mapping has a similarity item; a file
    is therefore reported at most once. *)
Theorem reported_files_follow_raw_data
    (return_code : ReturnCode.t) (raw_data : pydict) (r : DetectionResult.t) :
  process_result return_code raw_data = Ok r ->
  map SimilarityReport.file_path (DetectionResult.reports r)
  = map fst (filter (has_items self) raw_data)
  /\ (dict_wf raw_data ->
      NoDup (map SimilarityReport.file_path (DetectionResult.reports r))).
Proof.
  intros H. apply processed_reports in H as (builts & Hbuilt & ->).
  rewrite (reported_paths _ _ Hbuilt). split; [reflexivity|].
  intros Hwf. now apply dict_wf_filter.
Qed.

(** X9. A detector that does not show line counts never reads one: every
    report of the result and every similarity has [None] as line count
    of the file, and every item of the file's mapping, the key ["#LoC"]
    included, is read as a similarity. *)
Theorem without_show_loc_no_line_count
    (return_code : ReturnCode.t) (raw_data : pydict) (r : DetectionResult.t) :
  DuplicateCodeDetector.show_loc self = false ->
  process_result return_code raw_data = Ok r ->
  forall report,
    In report (DetectionResult.reports r) ->
    SimilarityReport.loc_count report = PNone /\
    Forall (fun s => FileSimilarity.source_loc s = PNone)
      (SimilarityReport.similarities report) /\
    exists d,
      In (SimilarityReport.file_path report, PDict d) raw_data /\
      Forall2 (similarity_of_item float_of_str) d
        (SimilarityReport.similarities report).
Proof.
  intros Hshow H report Hin.
  apply processed_reports in H as (builts & Hbuilt & Hreports).
  rewrite Hreports in Hin. apply filter_In in Hin as [Hin _].
  destruct (Forall2_In_r _ _ _ _ Hbuilt Hin)
    as ([fp v] & Hraw & d & Hd & Hpath & Hloc & Hsims).
  cbn [fst snd] in *. subst v.
  unfold entry_loc in *. unfold similarity_items in Hsims.
  rewrite Hshow in *. cbn [andb] in *.
  split; [exact Hloc|]. split.
  - eapply Forall2_Forall_r; [|exact Hsims]. intros item s _ (_ & Hs & _). exact Hs.
  - exists d. split; [now rewrite Hpath|].
    eapply Forall2_impl; [|exact Hsims]. intros item s (_ & _ & Hitem). exact Hitem.
Qed.

(** X10. A detector that shows line counts never takes the key ["#LoC"]
    for a file: no similarity of the result has it as target file. *)
Theorem with_show_loc_no_loc_target
    (return_code : ReturnCode.t) (raw_data : pydict) (r : DetectionResult.t) :
  DuplicateCodeDetector.show_loc self = true ->
  process_result return_code raw_data = Ok r ->
  Forall (fun s => FileSimilarity.target_file s <> "#LoC") (all_similarities r).
Proof.
  intros Hshow H.
  apply processed_reports in H as (builts & Hbuilt & Hreports).
  unfold all_similarities. apply Forall_forall. intros s Hs.
  apply in_concat in Hs as (sims & Hsims & Hs).
  apply in_map_iff in Hsims as (report & <- & Hin).
  rewrite Hreports in Hin. apply filter_In in Hin as [Hin _].
  destruct (Forall2_In_r _ _ _ _ Hbuilt Hin) as (entry & _ & d & _ & _ & _ & Hall).
  destruct (Forall2_In_r _ _ _ _ Hall Hs) as (item & Hitem & _ & _ & Htarget & _).
  rewrite Htarget. unfold similarity_items in Hitem. rewrite Hshow in Hitem.
  cbn [andb] in Hitem.
  destruct (dict_contains "#LoC" d) eqn:Hc.
  - now apply dict_without_key in Hitem.
  - now apply (dict_contains_false _ _ _ Hc).
Qed.

(** X11. When the percentage that every nested mapping of [raw_data]
    gives is a number, every percentage of the result is a number, and
    [get_critical_duplications] returns under any threshold. *)
Theorem numeric_raw_data_numeric_result
    (return_code : ReturnCode.t) (raw_data : pydict) (r : DetectionResult.t) :
  (forall file_path d item,
     In (file_path, PDict d) raw_data -> In item d -> numeric_item item) ->
  process_result return_code raw_data = Ok r ->
  numeric_percentages r /\
  forall threshold,
    eval (DetectionResult.get_critical_duplications threshold) r
    = Ok (filter (at_least threshold) (all_similarities r)).
Proof.
  intros Hnum H.
  assert (Hall : numeric_percentages r).
  { apply processed_reports in H as (builts & Hbuilt & Hreports).
    unfold numeric_percentages, all_similarities.
    apply Forall_forall. intros s Hs.
    apply in_concat in Hs as (sims & Hsims & Hs).
    apply in_map_iff in Hsims as (report & <- & Hin).
    rewrite Hreports in Hin. apply filter_In in Hin as [Hin _].
    destruct (Forall2_In_r _ _ _ _ Hbuilt Hin)
      as ([fp v] & Hraw & d & Hd & _ & _ & Hsims).
    cbn [fst snd] in *. subst v.
    destruct (Forall2_In_r _ _ _ _ Hsims Hs) as (item & Hitem & _ & _ & _ & Hpct).
    apply similarity_items_in in Hitem.
    specialize (Hnum fp d item Hraw Hitem).
    unfold numeric_item in Hnum. unfold numeric_percentage.
    destruct (snd item);
      try (destruct Hpct as (pct & _ & Hpct & _); rewrite Hpct; discriminate).
    destruct Hpct as [Hpct _]. rewrite Hpct. exact Hnum. }
  split; [exact Hall|]. intros threshold.
  rewrite get_critical_duplications_eval.
  destruct (filter_r_reaches threshold (all_similarities r)) as [[_ ->]|[Hnot _]];
    [reflexivity|contradiction].
Qed.

End AggregatorFurther.

Lemma fill_report_show_loc (float_of_str : string -> option float)
    (self1 self2 : DuplicateCodeDetector.t) (file_path : string) (v : pyval) :
  DuplicateCodeDetector.show_loc self1 = DuplicateCodeDetector.show_loc self2 ->
  DuplicateCodeDetector.fill_report float_of_str self1 file_path v
  = DuplicateCodeDetector.fill_report float_of_str self2 file_path v.
Proof.
  intros H. unfold DuplicateCodeDetector.fill_report. now rewrite H.
Qed.

(** X12. [_process_result] looks at nothing of its detector but
    [show_loc]: two detectors with the same [show_loc] give the same
    outcome, whatever their thresholds, extensions and [only_code]. *)
Theorem process_result_reads_show_loc_only
    (float_of_str : string -> option float)
    (self1 self2 : DuplicateCodeDetector.t)
    (return_code : ReturnCode.t) (raw_data : pydict) :
  DuplicateCodeDetector.show_loc self1 = DuplicateCodeDetector.show_loc self2 ->
  DuplicateCodeDetector._process_result float_of_str self1 return_code raw_data
  = DuplicateCodeDetector._process_result float_of_str self2 return_code raw_data.
Proof.
  intros H. unfold DuplicateCodeDetector._process_result.
  enough (Hitems : forall acc,
             DuplicateCodeDetector.process_items float_of_str self1 raw_data acc
             = DuplicateCodeDetector.process_items float_of_str self2 raw_data acc)
    by now rewrite Hitems.
  induction raw_data as [|[file_path v] items IH]; intros acc;
    cbn [DuplicateCodeDetector.process_items]; [reflexivity|].
  rewrite (fill_report_show_loc float_of_str self1 self2 file_path v H).
  destruct (DuplicateCodeDetector.fill_report _ _ _ _ _) as [[u|e] report];
    [apply IH|reflexivity].
Qed.

Lemma has_duplications_iff_some_similarity_witness :
  DuplicateCodeDetector._process_result Examples.no_literal Examples.detector
    ReturnCode.SUCCESS Examples.raw_loc
  = Ok Examples.result_loc
  /\ (eval DetectionResult.has_duplications Examples.result_loc = Ok true
      <-> all_similarities Examples.result_loc <> []).
Proof.
  split; [reflexivity|].
  exact (has_duplications_iff_some_similarity Examples.no_literal Examples.detector
           ReturnCode.SUCCESS Examples.raw_loc Examples.result_loc eq_refl).
Defined.

Lemma no_items_no_reports_witness :
  Forall (fun entry =>
            exists d, snd entry = PDict d /\
                      similarity_items Examples.detector d = [])
    Examples.raw_unique
  /\ DuplicateCodeDetector._process_result Examples.no_literal Examples.detector
       ReturnCode.SUCCESS Examples.raw_unique
     = Ok (DetectionResult.mk ReturnCode.SUCCESS [] Examples.raw_unique).
Proof.
  assert (H : Forall (fun entry =>
                        exists d, snd entry = PDict d /\
                                  similarity_items Examples.detector d = [])
                Examples.raw_unique).
  { repeat constructor; eexists; split; reflexivity. }
  split; [exact H|].
  exact (no_items_no_reports Examples.no_literal Examples.detector
           ReturnCode.SUCCESS Examples.raw_unique H).
Defined.

Lemma process_result_returns_iff_readable_witness :
  (exists r,
     DuplicateCodeDetector._process_result Examples.no_literal Examples.detector
       ReturnCode.SUCCESS Examples.raw_loc = Ok r)
  /\ readable_raw_data Examples.no_literal Examples.detector Examples.raw_loc.
Proof.
  assert (H : exists r,
             DuplicateCodeDetector._process_result Examples.no_literal
               Examples.detector ReturnCode.SUCCESS Examples.raw_loc = Ok r)
    by (exists Examples.result_loc; reflexivity).
  split; [exact H|].
  exact (proj1 (process_result_returns_iff_readable Examples.no_literal
                  Examples.detector ReturnCode.SUCCESS Examples.raw_loc) H).
Defined.

Lemma reported_files_follow_raw_data_witness :
  DuplicateCodeDetector._process_result Examples.no_literal Examples.detector
    ReturnCode.SUCCESS Examples.raw_loc
  = Ok Examples.result_loc
  /\ map SimilarityReport.file_path (DetectionResult.reports Examples.result_loc)
     = ["a.py"; "b.py"]
  /\ NoDup (map SimilarityReport.file_path
              (DetectionResult.reports Examples.result_loc)).
Proof.
  pose proof (reported_files_follow_raw_data Examples.no_literal Examples.detector
                ReturnCode.SUCCESS Examples.raw_loc Examples.result_loc eq_refl)
    as [Hpaths Hnodup].
  split; [reflexivity|]. split; [exact Hpaths|exact (Hnodup raw_loc_wf)].
Defined.

Lemma without_show_loc_no_line_count_witness :
  DuplicateCodeDetector.show_loc Examples.detector_no_loc = false
  /\ DuplicateCodeDetector._process_result Examples.no_literal
       Examples.detector_no_loc ReturnCode.SUCCESS Examples.raw_only_loc
     = Ok Examples.result_only_loc
  /\ forall report,
       In report (DetectionResult.reports Examples.result_only_loc) ->
       SimilarityReport.loc_count report = PNone /\
       Forall (fun s => FileSimilarity.source_loc s = PNone)
         (SimilarityReport.similarities report) /\
       exists d,
         In (SimilarityReport.file_path report, PDict d) Examples.raw_only_loc /\
         Forall2 (similarity_of_item Examples.no_literal) d
           (SimilarityReport.similarities report).
Proof.
  split; [reflexivity|]. split; [reflexivity|].
  exact (without_show_loc_no_line_count Examples.no_literal Examples.detector_no_loc
           ReturnCode.SUCCESS Examples.raw_only_loc Examples.result_only_loc
           eq_refl eq_refl).
Defined.

Lemma with_show_loc_no_loc_target_witness :
  DuplicateCodeDetector.show_loc Examples.detector = true
  /\ DuplicateCodeDetector._process_result Examples.no_literal Examples.detector
       ReturnCode.SUCCESS Examples.raw_loc
     = Ok Examples.result_loc
  /\ Forall (fun s => FileSimilarity.target_file s <> "#LoC")
       (all_similarities Examples.result_loc).
Proof.
  split; [reflexivity|]. split; [reflexivity|].
  exact (with_show_loc_no_loc_target Examples.no_literal Examples.detector
           ReturnCode.SUCCESS Examples.raw_loc Examples.result_loc eq_refl eq_refl).
Defined.

Lemma raw_loc_numeric (file_path : string) (d : pydict) (item : string * pyval) :
  In (file_path, PDict d) Examples.raw_loc -> In item d -> numeric_item item.
Proof.
  intros H Hitem. cbn in H.
  destruct H as [H|[H|[H|[]]]]; injection H as _ <-; cbn in Hitem;
    repeat (destruct Hitem as [<-|Hitem]; [cbn; trivial; discriminate|]);
    contradiction.
Defined.

Lemma numeric_raw_data_numeric_result_witness :
  (forall file_path d item,
     In (file_path, PDict d) Examples.raw_loc -> In item d -> numeric_item item)
  /\ DuplicateCodeDetector._process_result Examples.no_literal Examples.detector
       ReturnCode.SUCCESS Examples.raw_loc
     = Ok Examples.result_loc
  /\ numeric_percentages Examples.result_loc
  /\ forall threshold,
       eval (DetectionResult.get_critical_duplications threshold) Examples.result_loc
       = Ok (filter (at_least threshold) (all_similarities Examples.result_loc)).
Proof.
  split; [exact raw_loc_numeric|]. split; [reflexivity|].
  exact (numeric_raw_data_numeric_result Examples.no_literal Examples.detector
           ReturnCode.SUCCESS Examples.raw_loc Examples.result_loc
           raw_loc_numeric eq_refl).
Defined.

Lemma process_result_reads_show_loc_only_witness :
  DuplicateCodeDetector.show_loc Examples.detector
  = DuplicateCodeDetector.show_loc Examples.detector_strict
  /\ DuplicateCodeDetector._process_result Examples.no_literal Examples.detector
       ReturnCode.SUCCESS Examples.raw_loc
     = DuplicateCodeDetector._process_result Examples.no_literal
         Examples.detector_strict ReturnCode.SUCCESS Examples.raw_loc.
Proof.
  split; [reflexivity|].
  exact (process_result_reads_show_loc_only Examples.no_literal Examples.detector
           Examples.detector_strict ReturnCode.SUCCESS Examples.raw_loc eq_refl).
Defined.

(* ===================================================================== *)
(** ** Further properties of the serialised documents *)
(* ===================================================================== *)

Lemma similarity_document_injective (s1 s2 : FileSimilarity.t) (v : pyval) :
  similarity_document s1 v -> similarity_document s2 v -> s1 = s2.
Proof.
  unfold similarity_document. intros -> H.
  destruct s1, s2. cbn in H. congruence.
Qed.

Lemma similarity_documents_injective (l1 l2 : list FileSimilarity.t) (docs : list pyval) :
  Forall2 similarity_document l1 docs -> Forall2 similarity_document l2 docs ->
  l1 = l2.
Proof.
  intros H1. revert l2.
  induction H1 as [|s1 v l1 docs Hs1 _ IH]; intros l2 H2; inversion H2; subst;
    [reflexivity|].
  f_equal; [eapply similarity_document_injective; eauto|now apply IH].
Qed.

Lemma report_document_injective (r1 r2 : SimilarityReport.t) (v : pyval) :
  report_document r1 v -> report_document r2 v -> r1 = r2.
Proof.
  intros (sims1 & H1 & ->) (sims2 & H2 & Heq).
  injection Heq as Hfp Hlc Hsims. subst sims2.
  pose proof (similarity_documents_injective _ _ _ H1 H2) as Hl.
  destruct r1, r2. cbn in *. congruence.
Qed.

Lemma report_documents_injective (l1 l2 : list SimilarityReport.t) (docs : list pyval) :
  Forall2 report_document l1 docs -> Forall2 report_document l2 docs -> l1 = l2.
Proof.
  intros H1. revert l2.
  induction H1 as [|r1 v l1 docs Hr1 _ IH]; intros l2 H2; inversion H2; subst;
    [reflexivity|].
  f_equal; [eapply report_document_injective; eauto|now apply IH].
Qed.

(** X13. The documents of reports lose nothing: two reports with the
    same [to_dict()] are the same report, similarity by similarity. *)
Theorem report_to_dict_injective (r1 r2 : SimilarityReport.t) :
  eval SimilarityReport.to_dict r1 = eval SimilarityReport.to_dict r2 -> r1 = r2.
Proof.
  destruct (SimilarityReport_to_dict_run r1) as (v1 & Hv1 & Hdoc1).
  destruct (SimilarityReport_to_dict_run r2) as (v2 & Hv2 & Hdoc2).
  unfold eval. rewrite Hv1, Hv2. cbn [fst]. intros [= ->].
  eapply report_document_injective; eauto.
Qed.

Lemma report_to_dict_injective_witness :
  eval SimilarityReport.to_dict
    (SimilarityReport.mk "a.py" [Examples.sim "a.py" "b.py" (PInt 20)] PNone)
  = Ok (PDict [ ("file_path", PStr "a.py");
                ("loc_count", PNone);
                ("similarities",
                 PList [ PDict [ ("source_file", PStr "a.py");
                                 ("target_file", PStr "b.py");
                                 ("similarity_percentage", PInt 20);
                                 ("source_loc", PNone);
                                 ("target_loc", PNone) ] ]) ])
  /\ SimilarityReport.mk "a.py" [Examples.sim "a.py" "b.py" (PInt 20)] PNone
     = SimilarityReport.mk "a.py" [Examples.sim "a.py" "b.py" (PInt 20)] PNone.
Proof.
  split; [reflexivity|].
  exact (report_to_dict_injective _ _ eq_refl).
Defined.

(** X14. The document of a result determines the result: two results
    with the same [to_dict()] have the same reports, the same raw
    mapping and return codes of the same value. *)
Theorem result_to_dict_injective (r1 r2 : DetectionResult.t) :
  eval DetectionResult.to_dict r1 = eval DetectionResult.to_dict r2 ->
  DetectionResult.reports r1 = DetectionResult.reports r2 /\
  DetectionResult.raw_data r1 = DetectionResult.raw_data r2 /\
  ReturnCode.value (DetectionResult.return_code r1)
  = ReturnCode.value (DetectionResult.return_code r2).
Proof.
  destruct (DetectionResult_to_dict_run r1) as (reps1 & H1 & ->).
  destruct (DetectionResult_to_dict_run r2) as (reps2 & H2 & ->).
  intros [= Hrc _ _ Hreps Hraw]. subst reps2.
  split; [|split; [exact Hraw|exact Hrc]].
  eapply report_documents_injective; eauto.
Qed.

Lemma result_to_dict_injective_witness :
  eval DetectionResult.to_dict Examples.result_loc
  = eval DetectionResult.to_dict Examples.result_loc
  /\ DetectionResult.reports Examples.result_loc
     = DetectionResult.reports Examples.result_loc.
Proof.
  split; [reflexivity|].
  exact (proj1 (result_to_dict_injective Examples.result_loc Examples.result_loc
                  eq_refl)).
Defined.

(* ===================================================================== *)
(** ** Properties of the detector's entry points *)
(* ===================================================================== *)

(** X15. A detector never has an empty list of extensions: a list that
    is given and not empty is kept, and both [None] and the empty list
    are replaced by the seven default extensions. *)
Theorem init_file_extensions
    (fail_threshold ignore_threshold : Z) (file_extensions : option (list string))
    (only_code show_loc : bool) :
  DuplicateCodeDetector.file_extensions
    (DuplicateCodeDetector.init fail_threshold ignore_threshold file_extensions
       only_code show_loc) <> []
  /\ (forall l, file_extensions = Some l -> l <> [] ->
                DuplicateCodeDetector.file_extensions
                  (DuplicateCodeDetector.init fail_threshold ignore_threshold
                     file_extensions only_code show_loc) = l)
  /\ (file_extensions = None \/ file_extensions = Some [] ->
      DuplicateCodeDetector.file_extensions
        (DuplicateCodeDetector.init fail_threshold ignore_threshold
           file_extensions only_code show_loc)
      = ["py"; "js"; "ts"; "java"; "cpp"; "c"; "h"]).
Proof.
  cbn. split; [|split].
  - destruct file_extensions as [[|e l]|]; discriminate.
  - intros l -> Hl. destruct l; [contradiction|reflexivity].
  - intros [->| ->]; reflexivity.
Qed.

Lemma init_file_extensions_witness :
  (@None (list string) = None \/ @None (list string) = Some [])
  /\ DuplicateCodeDetector.file_extensions Examples.detector
     = ["py"; "js"; "ts"; "java"; "cpp"; "c"; "h"]
  /\ DuplicateCodeDetector.file_extensions Examples.detector_strict = ["py"].
Proof.
  pose proof (init_file_extensions 100 15 None false true) as (_ & _ & Hdefault).
  pose proof (init_file_extensions 80 20 (Some ["py"]) true true) as (_ & Hkept & _).
  split; [now left|]. split.
  - apply Hdefault. now left.
  - apply (Hkept ["py"]); [reflexivity|discriminate].
Defined.

Lemma endswith_refl (s : string) : endswith s s = true.
Proof. destruct s; cbn [endswith]; now rewrite String.eqb_refl. Qed.

Lemma endswith_append (s suffix : string) :
  endswith (s ++ suffix)%string suffix = true.
Proof.
  induction s as [|c s IH]; cbn [String.append].
  - apply endswith_refl.
  - cbn [endswith]. rewrite IH. now destruct (String.eqb _ _).
Qed.

Lemma ignore_directory_endswith (pattern : string) :
  endswith (DuplicateCodeDetector.ignore_directory pattern) "/" = true.
Proof.
  unfold DuplicateCodeDetector.ignore_directory.
  destruct (endswith pattern "/") eqn:H; [exact H|apply endswith_append].
Qed.

Lemma ignore_directory_kept (pattern : string) :
  endswith pattern "/" = true ->
  DuplicateCodeDetector.ignore_directory pattern = pattern.
Proof. unfold DuplicateCodeDetector.ignore_directory. now intros ->. Qed.

Lemma ignore_directories_of_map (exclude_patterns : list string) :
  DuplicateCodeDetector.ignore_directories_of exclude_patterns
  = map DuplicateCodeDetector.ignore_directory exclude_patterns.
Proof.
  unfold DuplicateCodeDetector.ignore_directories_of.
  enough (H : forall acc,
             fold_left (fun ignore_directories pattern =>
                          ignore_directories
                          ++ [DuplicateCodeDetector.ignore_directory pattern])
               exclude_patterns acc
             = acc ++ map DuplicateCodeDetector.ignore_directory exclude_patterns)
    by apply (H []).
  induction exclude_patterns as [|p l IH]; intros acc; cbn [fold_left map].
  - now rewrite app_nil_r.
  - rewrite IH, <- app_assoc. reflexivity.
Qed.

(** X16. [analyze_project] turns the exclude patterns into ignore
    directories one for one and in order: each ends with ["/"], a
    pattern that ends with ["/"] is taken as it is and any other gets
    ["/"] appended. *)
Theorem ignore_directories_end_with_slash (exclude_patterns : list string) :
  length (DuplicateCodeDetector.ignore_directories_of exclude_patterns)
  = length exclude_patterns
  /\ Forall (fun d => endswith d "/" = true)
       (DuplicateCodeDetector.ignore_directories_of exclude_patterns)
  /\ Forall2
       (fun pattern d =>
          (endswith pattern "/" = true -> d = pattern) /\
          (endswith pattern "/" = false -> d = (pattern ++ "/")%string))
       exclude_patterns
       (DuplicateCodeDetector.ignore_directories_of exclude_patterns).
Proof.
  rewrite ignore_directories_of_map. split; [|split].
  - apply length_map.
  - apply Forall_forall. intros d Hd. apply in_map_iff in Hd as (p & <- & _).
    apply ignore_directory_endswith.
  - apply Forall2_map_graph. intros p.
    unfold DuplicateCodeDetector.ignore_directory.
    destruct (endswith p "/"); split; congruence.
Qed.

Lemma ignore_directories_end_with_slash_witness :
  DuplicateCodeDetector.ignore_directories_of ["tests/"; "docs"; "*.pyc"; ""]
  = ["tests/"; "docs/"; "*.pyc/"; "/"]
  /\ Forall (fun d => endswith d "/" = true)
       (DuplicateCodeDetector.ignore_directories_of ["tests/"; "docs"; "*.pyc"; ""]).
Proof.
  split; [reflexivity|].
  exact (proj1 (proj2 (ignore_directories_end_with_slash
                         ["tests/"; "docs"; "*.pyc"; ""]))).
Defined.

Section EntryPoints.

Variable float_of_str : string -> option float.
Variable run : RunArgs.t -> result (ReturnCode.t * pydict).

Local Abbreviation detect_in_directories :=
  (DuplicateCodeDetector.detect_in_directories float_of_str run).
Local Abbreviation detect_in_files :=
  (DuplicateCodeDetector.detect_in_files float_of_str run).
Local Abbreviation analyze_project :=
  (DuplicateCodeDetector.analyze_project float_of_str run).

(** X17. For [analyze_project] an exclude pattern and the pattern
    followed by ["/"] are the same: passing the ignore directories it
    derives as patterns changes nothing, and passing no patterns is
    passing the empty list. *)
Theorem analyze_project_patterns_normalised
    (self : DuplicateCodeDetector.t) (project_path : string)
    (exclude_patterns : list string) :
  analyze_project self project_path
    (Some (DuplicateCodeDetector.ignore_directories_of exclude_patterns))
  = analyze_project self project_path (Some exclude_patterns)
  /\ analyze_project self project_path None
     = analyze_project self project_path (Some []).
Proof.
  split; [|reflexivity].
  unfold DuplicateCodeDetector.analyze_project. cbn [or_empty].
  rewrite !ignore_directories_of_map, map_map.
  f_equal. f_equal. apply map_ext. intros p.
  apply ignore_directory_kept, ignore_directory_endswith.
Qed.

Lemma process_result_consistent (self : DuplicateCodeDetector.t)
    (return_code : ReturnCode.t) (raw_data : pydict) (r : DetectionResult.t) :
  DuplicateCodeDetector._process_result float_of_str self return_code raw_data = Ok r ->
  consistent_reports r /\
  DetectionResult.return_code r = return_code /\
  DetectionResult.raw_data r = raw_data.
Proof.
  intros H. pose proof (process_result_ok _ _ _ _ _ H) as (Hrc & Hraw & _).
  split; [|auto].
  apply processed_reports in H as (builts & Hbuilt & Hreports).
  unfold consistent_reports. rewrite Hreports.
  apply Forall_forall. intros report Hin. apply filter_In in Hin as [Hin Hne].
  split; [now apply has_similarities_nonempty|].
  destruct (Forall2_In_r _ _ _ _ Hbuilt Hin) as (entry & _ & d & _ & Hpath & Hloc & Hsims).
  eapply Forall2_Forall_r; [|exact Hsims].
  intros item s _ (Hsrc & Hsloc & _). now rewrite Hpath, Hloc.
Qed.

(** X18. Whatever [run] returns, a result that [detect_in_directories],
    [detect_in_files] or [analyze_project] returns carries the return
    code and the raw mapping of one call of [run], has no empty report,
    and each of its similarities carries the file path and the line
    count of its report. *)
Theorem detection_results_consistent
    (self : DuplicateCodeDetector.t) (directories files : list string)
    (ignore_directories ignore_files exclude_patterns : option (list string))
    (project_root_dir project_path : string) (r : DetectionResult.t) :
  detect_in_directories self directories ignore_directories ignore_files
    project_root_dir = Ok r
  \/ detect_in_files self files ignore_files project_root_dir = Ok r
  \/ analyze_project self project_path exclude_patterns = Ok r ->
  consistent_reports r /\
  exists args,
    run args = Ok (DetectionResult.return_code r, DetectionResult.raw_data r).
Proof.
  unfold DuplicateCodeDetector.analyze_project,
    DuplicateCodeDetector.detect_in_directories,
    DuplicateCodeDetector.detect_in_files.
  intros [H|[H|H]];
    match type of H with
    | match run ?a with _ => _ end = _ =>
        destruct (run a) as [[return_code raw_data]|e] eqn:Hrun; [|discriminate];
        apply process_result_consistent in H as (Hcons & <- & <-);
        split; [exact Hcons|exists a; exact Hrun]
    end.
Qed.

End EntryPoints.

Lemma detection_results_consistent_witness :
  DuplicateCodeDetector.analyze_project Examples.no_literal Examples.run_loc
    Examples.detector ".." (Some ["tests"]) = Ok Examples.result_loc
  /\ consistent_reports Examples.result_loc
  /\ exists args,
       Examples.run_loc args
       = Ok (DetectionResult.return_code Examples.result_loc,
             DetectionResult.raw_data Examples.result_loc).
Proof.
  split; [reflexivity|].
  apply (detection_results_consistent Examples.no_literal Examples.run_loc
           Examples.detector [] [] None None (Some ["tests"]) "" "..").
  right. right. reflexivity.
Defined.

(* ===================================================================== *)
(** ** Properties of the convenience functions *)
(* ===================================================================== *)

Lemma py_int_bounds (threshold : float) (z : Z) :
  float_le (S754_zero false) threshold = true ->
  py_int threshold = Ok z ->
  0 <= z /\
  num_le (NumInt z) (NumFloat threshold) = true /\
  num_le (NumInt (z + 1)) (NumFloat threshold) = false.
Proof.
  unfold float_le, num_le, xreal_leb.
  destruct threshold as [s|s| |s m e]; cbn [py_int num_value float_value xreal_compare];
    try discriminate.
  - intros _ [= <-]. split; [lia|split; reflexivity].
  - destruct s; cbn [cond_Zopp].
    + rewrite dyadic_compare_signs_gt by lia. discriminate.
    + intros _ [= <-]. unfold dyadic_compare.
      assert (Hpos : 0 < Zpos m) by lia.
      destruct (Z.le_gt_cases 0 e) as [He|He].
      * rewrite Z.shiftl_mul_pow2 by exact He.
        rewrite Z.min_l by exact He. rewrite !Z.sub_0_r. cbn [Z.pow].
        rewrite !Z.mul_1_r.
        assert (0 < 2 ^ e) by (apply Z.pow_pos_nonneg; lia).
        split; [nia|]. rewrite Z.compare_refl.
        split; [reflexivity|].
        destruct (Z.compare_spec (Zpos m * 2 ^ e + 1) (Zpos m * 2 ^ e));
          [lia|lia|reflexivity].
      * rewrite Z.shiftl_div_pow2 by lia.
        rewrite Z.min_r, Z.sub_diag by lia. cbn [Z.pow]. rewrite Z.mul_1_r.
        replace (0 - e) with (- e) by lia.
        assert (Hp : 0 < 2 ^ (- e)) by (apply Z.pow_pos_nonneg; lia).
        pose proof (Z.div_mod (Zpos m) (2 ^ (- e)) ltac:(lia)) as Hdm.
        pose proof (Z.mod_pos_bound (Zpos m) (2 ^ (- e)) Hp) as Hmod.
        pose proof (Z.div_pos (Zpos m) (2 ^ (- e)) ltac:(lia) Hp) as Hq.
        set (q := Zpos m / 2 ^ (- e)) in *.
        split; [exact Hq|]. split.
        -- destruct (Z.compare_spec (q * 2 ^ (- e)) (Zpos m));
             [reflexivity|reflexivity|nia].
        -- destruct (Z.compare_spec ((q + 1) * 2 ^ (- e)) (Zpos m));
             [nia|nia|reflexivity].
Qed.

Lemma new_detector_ignore_threshold (ignore_threshold : Z) (kwargs : list kwarg)
    (detector : DuplicateCodeDetector.t) :
  new_detector ignore_threshold kwargs = Ok detector ->
  DuplicateCodeDetector.ignore_threshold detector = ignore_threshold.
Proof.
  unfold new_detector. destruct (existsb refused_kwarg kwargs); [discriminate|].
  now intros [= <-].
Qed.

Section ConvenienceProperties.

Variable float_of_str : string -> option float.
Variable run : RunArgs.t -> result (ReturnCode.t * pydict).

(** X19. The convenience functions cut the fraction of a threshold that
    is not negative: they run the detection with a detector whose
    [ignore_threshold] is the integer [z] with
    [z <= threshold < z + 1]. *)
Theorem convenience_threshold_truncated
    (threshold : float) (kwargs : list kwarg) (z : Z)
    (detector : DuplicateCodeDetector.t) :
  float_le (S754_zero false) threshold = true ->
  py_int threshold = Ok z ->
  new_detector z kwargs = Ok detector ->
  (DuplicateCodeDetector.ignore_threshold detector = z /\
   0 <= z /\
   num_le (NumInt z) (NumFloat threshold) = true /\
   num_le (NumInt (z + 1)) (NumFloat threshold) = false)
  /\ (forall directories,
        detect_duplicates_in_directories float_of_str run directories threshold kwargs
        = DuplicateCodeDetector.detect_in_directories float_of_str run detector
            directories None None "")
  /\ (forall files,
        detect_duplicates_in_files float_of_str run files threshold kwargs
        = DuplicateCodeDetector.detect_in_files float_of_str run detector
            files None "")
  /\ (forall project_path exclude_patterns,
        analyze_project_duplicates float_of_str run project_path threshold
          exclude_patterns kwargs
        = DuplicateCodeDetector.analyze_project float_of_str run detector
            project_path exclude_patterns).
Proof.
  intros Hpos Hint Hnew.
  pose proof (py_int_bounds threshold z Hpos Hint) as (Hz & Hle & Hlt).
  pose proof (new_detector_ignore_threshold z kwargs detector Hnew) as Hit.
  unfold detect_duplicates_in_directories, detect_duplicates_in_files,
    analyze_project_duplicates.
  rewrite Hint, Hnew. repeat split; assumption.
Qed.


(** X21. A threshold that is no finite number stops the convenience
    functions before any detection: a NaN raises a [ValueError] and an
    infinity an [OverflowError], whatever the keyword arguments. *)
Theorem convenience_refuses_nan_and_infinity
    (threshold : float) (kwargs : list kwarg) :
  (threshold = S754_nan ->
   convenience_raises float_of_str run threshold kwargs ValueError)
  /\ (forall s, threshold = S754_infinity s ->
                convenience_raises float_of_str run threshold kwargs OverflowError).
Proof.
  split; [intros ->|intros s ->]; repeat split.
Qed.

End ConvenienceProperties.

Lemma convenience_threshold_truncated_witness :
  float_le (S754_zero false) Examples.f15_75 = true
  /\ py_int Examples.f15_75 = Ok 15
  /\ new_detector 15 [Kw_show_loc false] = Ok Examples.detector_no_loc
  /\ DuplicateCodeDetector.ignore_threshold Examples.detector_no_loc = 15
  /\ num_le (NumInt 15) (NumFloat Examples.f15_75) = true
  /\ num_le (NumInt 16) (NumFloat Examples.f15_75) = false.
Proof.
  pose proof (convenience_threshold_truncated Examples.no_literal Examples.run_loc
                Examples.f15_75 [Kw_show_loc false] 15 Examples.detector_no_loc
                eq_refl eq_refl eq_refl) as ((Hit & _ & Hle & Hlt) & _).
  repeat split; assumption.
Defined.


Lemma convenience_refuses_nan_and_infinity_witness :
  convenience_raises Examples.no_literal Examples.run_loc S754_nan [] ValueError
  /\ convenience_raises Examples.no_literal Examples.run_loc (S754_infinity false) []
       OverflowError.
Proof.
  split.
  - exact (proj1 (convenience_refuses_nan_and_infinity Examples.no_literal
                    Examples.run_loc S754_nan []) eq_refl).
  - exact (proj2 (convenience_refuses_nan_and_infinity Examples.no_literal
                    Examples.run_loc (S754_infinity false) []) false eq_refl).
Defined.

(* ===================================================================== *)
(** ** Critical duplications, report by report *)
(* ===================================================================== *)

Lemma filter_r_by_report (threshold : float) (reps : list SimilarityReport.t) :
  forall l,
  filter_r (reaches threshold) (concat (map SimilarityReport.similarities reps)) = Ok l ->
  exists parts,
    Forall2
      (fun report part =>
         eval (SimilarityReport.get_high_similarities threshold) report = Ok part)
      reps parts /\
    l = concat parts.
Proof.
  induction reps as [|report reps IH]; cbn [map concat]; intros l.
  - intros [= <-]. exists []. split; [constructor|reflexivity].
  - rewrite filter_r_app.
    destruct (filter_r (reaches threshold) (SimilarityReport.similarities report))
      as [part|e] eqn:Hpart; [|discriminate].
    destruct (filter_r (reaches threshold) _) as [rest|e] eqn:Hrest; [|discriminate].
    intros [= <-]. destruct (IH rest eq_refl) as (parts & Hparts & ->).
    exists (part :: parts). split; [|reflexivity].
    constructor; [|exact Hparts].
    unfold eval. rewrite get_high_similarities_run. exact Hpart.
Qed.

(** X22. What [get_critical_duplications] returns is, report after
    report, what [get_high_similarities] returns for the report under
    the same threshold. *)
Theorem get_critical_duplications_by_report
    (r : DetectionResult.t) (threshold : float) (l : list FileSimilarity.t) :
  eval (DetectionResult.get_critical_duplications threshold) r = Ok l ->
  exists parts,
    Forall2
      (fun report part =>
         eval (SimilarityReport.get_high_similarities threshold) report = Ok part)
      (DetectionResult.reports r) parts /\
    l = concat parts.
Proof.
  rewrite get_critical_duplications_eval. apply filter_r_by_report.
Qed.

Lemma get_critical_duplications_by_report_witness :
  eval (DetectionResult.get_critical_duplications Examples.f50) Examples.result2
  = Ok [ Examples.sim "a.py" "b.py" (PFloat Examples.f99_5);
         Examples.sim "b.py" "c.py" (PFloat Examples.f50);
         Examples.sim "b.py" "a.py" (PFloat Examples.f99_5) ]
  /\ exists parts,
       Forall2
         (fun report part =>
            eval (SimilarityReport.get_high_similarities Examples.f50) report
            = Ok part)
         (DetectionResult.reports Examples.result2) parts /\
       [ Examples.sim "a.py" "b.py" (PFloat Examples.f99_5);
         Examples.sim "b.py" "c.py" (PFloat Examples.f50);
         Examples.sim "b.py" "a.py" (PFloat Examples.f99_5) ]
       = concat parts.
Proof.
  split; [reflexivity|].
  exact (get_critical_duplications_by_report Examples.result2 Examples.f50 _ eq_refl).
Defined.

(** Keywords the detector takes, and keywords it refuses. *)

Example keyword_of_a_parameter_accepted :
  new_detector 50 [Kw_fail_threshold 60]
  = Ok (DuplicateCodeDetector.init 60 50 None false true).
Proof. reflexivity. Qed.

Example keyword_of_another_name_refused :
  new_detector 50 [Kw_other "verbose" (PBool true) eq_refl] = Raise TypeError.
Proof. reflexivity. Qed.
